(** * content-script-activation: the activation / injection protocol

    A shallow embedding of the three source modules of the package

    - [messages.ts]        : the two wire messages and their discriminators,
    - [content-script.ts]  : the listener installed in the page ([setupActivation]),
    - the service-worker module: [activateContentScript] and
      [setupContentScriptActivation] with its inner [activate] routine,

    followed by the properties the specification states about them. *)

From Stdlib Require Import String List ZArith Bool Lia.
Import ListNotations.
Local Open Scope string_scope.
Local Open Scope list_scope.

(** ** JavaScript values

    Messages, tabs and injection options are plain JavaScript data.  Objects
    are property lists in insertion order; tab ids are the only numbers the
    program handles, so numbers are integers. *)

#[warnings="-register-all"]
Inductive JsValue : Type :=
| JUndefined
| JNull
| JBool (b : bool)
| JNum (n : Z)
| JStr (s : string)
| JArr (items : list JsValue)
| JObj (props : list (string * JsValue)).

Definition JsObject : Type := list (string * JsValue).

(** A synchronous completion: a value, or a thrown exception.  The same type
    describes a settled promise (fulfilled with a value, or rejected);
    rejection reasons play no role in the program and are not recorded. *)
Inductive Completion (A : Type) : Type :=
| Normal (a : A)
| Thrown.
Arguments Normal {A} a.
Arguments Thrown {A}.

Module Js.

(** [o[k]] on a property list: the first binding of [k]. *)
Fixpoint obj_get (k : string) (o : JsObject) : JsValue :=
  match o with
  | [] => JUndefined
  | (k', v) :: o' => if String.eqb k k' then v else obj_get k o'
  end.

Fixpoint obj_has (k : string) (o : JsObject) : bool :=
  match o with
  | [] => false
  | (k', _) :: o' => String.eqb k k' || obj_has k o'
  end.

(** [o[k] = v]: overwrite in place, or append a new property. *)
Fixpoint obj_set (k : string) (v : JsValue) (o : JsObject) : JsObject :=
  match o with
  | [] => [(k, v)]
  | (k', v') :: o' =>
      if String.eqb k k' then (k, v) :: o' else (k', v') :: obj_set k v o'
  end.

(** [{ ...base, ...extra }]: every property of [extra] is set on [base]. *)
Definition spread (base extra : JsObject) : JsObject :=
  fold_left (fun acc kv => obj_set (fst kv) (snd kv) acc) extra base.

(** [v.k] for a value that is known not to be [null] or [undefined]:
    the program reads properties only after an [in] test succeeded or on
    objects it built itself.  Primitives and arrays have none of the
    properties the program reads. *)
Definition get (v : JsValue) (k : string) : JsValue :=
  match v with
  | JObj o => obj_get k o
  | _ => JUndefined
  end.

(** [k in v].  The operator throws a TypeError when [v] is not an object.
    Inherited members of [Object.prototype] and array indices are not
    modelled: the only key the program tests is [KEY], which is neither. *)
Definition has (k : string) (v : JsValue) : Completion bool :=
  match v with
  | JObj o => Normal (obj_has k o)
  | JArr _ => Normal false
  | _ => Thrown
  end.

(** [v === s] for a string constant [s]. *)
Definition eq_string (v : JsValue) (s : string) : bool :=
  match v with
  | JStr s' => String.eqb s' s
  | _ => false
  end.

(** [v === scriptId] where [scriptId?: string]: [None] is [undefined]. *)
Definition eq_opt_string (v : JsValue) (s : option string) : bool :=
  match v, s with
  | JUndefined, None => true
  | JStr s', Some s0 => String.eqb s' s0
  | _, _ => false
  end.

Definition of_opt_string (s : option string) : JsValue :=
  match s with
  | Some s0 => JStr s0
  | None => JUndefined
  end.

(** ToBoolean. *)
Definition truthy (v : JsValue) : bool :=
  match v with
  | JUndefined | JNull => false
  | JBool b => b
  | JNum n => negb (Z.eqb n 0)
  | JStr s => negb (String.eqb s "")
  | JArr _ | JObj _ => true
  end.

End Js.

(** ** messages.ts *)

Module Messages.

Definition KEY : string := "[content-script-activation]".
Definition TYPE_REQUEST_ACTIVATION : string := "request-activation".
Definition TYPE_ACTIVATION_SUCCESS : string := "activation-success".

(** [RequestActivationContext = { tab, tabId }]. *)
Record RequestActivationContext : Type := mkContext {
  tab : JsObject;
  tabId : JsValue
}.

Definition context_value (c : RequestActivationContext) : JsValue :=
  JObj [("tab", JObj (tab c)); ("tabId", tabId c)].

Definition createRequestActivationMessage
    (context : RequestActivationContext) (scriptId : option string) : JsValue :=
  JObj [(KEY, JStr TYPE_REQUEST_ACTIVATION);
        ("context", context_value context);
        ("scriptId", Js.of_opt_string scriptId)].

(** [KEY in message && message[KEY] === TYPE_REQUEST_ACTIVATION]. *)
Definition isRequestActivationMessage (message : JsValue) : Completion bool :=
  match Js.has KEY message with
  | Normal true => Normal (Js.eq_string (Js.get message KEY) TYPE_REQUEST_ACTIVATION)
  | Normal false => Normal false
  | Thrown => Thrown
  end.

Definition createActivationSuccessMessage (scriptId : option string) : JsValue :=
  JObj [(KEY, JStr TYPE_ACTIVATION_SUCCESS);
        ("scriptId", Js.of_opt_string scriptId)].

(** [KEY in message && message[KEY] === TYPE_ACTIVATION_SUCCESS]. *)
Definition isActivationSuccessMessage (message : JsValue) : Completion bool :=
  match Js.has KEY message with
  | Normal true => Normal (Js.eq_string (Js.get message KEY) TYPE_ACTIVATION_SUCCESS)
  | Normal false => Normal false
  | Thrown => Thrown
  end.

End Messages.

(** ** Effects

    A computation runs against a state [W] (the browser for the service
    worker, the page for the content script), appends the calls it makes on
    the outside world to a log of events [E], and either returns or throws.
    An [await] on a rejected promise is a throw at that point. *)

Definition M (W E A : Type) : Type := W -> Completion A * W * list E.

Definition ret {W E A} (a : A) : M W E A := fun w => (Normal a, w, []).

Definition bind {W E A B} (m : M W E A) (k : A -> M W E B) : M W E B :=
  fun w =>
    match m w with
    | (Normal a, w1, t1) =>
        match k a w1 with
        | (r, w2, t2) => (r, w2, t1 ++ t2)
        end
    | (Thrown, w1, t1) => (Thrown, w1, t1)
    end.

(** [try { body } catch (error) { handler }]. *)
Definition try_catch {W E A} (body handler : M W E A) : M W E A :=
  fun w =>
    match body w with
    | (Normal a, w1, t1) => (Normal a, w1, t1)
    | (Thrown, w1, t1) =>
        match handler w1 with
        | (r, w2, t2) => (r, w2, t1 ++ t2)
        end
    end.

(** A pure step that may throw. *)
Definition lift {W E A} (c : Completion A) : M W E A := fun w => (c, w, []).

(** A call on the outside world: its settled outcome is logged as [ev]. *)
Definition call {W E A} (f : W -> Completion A * W) (ev : Completion A -> E)
  : M W E (Completion A) :=
  fun w => match f w with (r, w1) => (Normal r, w1, [ev r]) end.

(** [await p]. *)
Definition await {W E A} (p : M W E (Completion A)) : M W E A :=
  bind p lift.

(** A call [f(x)] whose result is used as it comes: the call completes as
    [f] does, so a throw of [f] is a throw here; its completion is logged
    as [ev]. *)
Definition invoke {W E A} (f : W -> Completion A * W) (ev : Completion A -> E)
  : M W E A :=
  fun w => match f w with (r, w1) => (r, w1, [ev r]) end.

Declare Scope js_scope.
Delimit Scope js_scope with js.
Notation "x <- m ;; k" := (bind m (fun x => k))
  (at level 61, m at next level, right associativity) : js_scope.
Notation "m ;;; k" := (bind m (fun _ => k))
  (at level 61, right associativity) : js_scope.
Local Open Scope js_scope.

Definition result {W E A} (r : Completion A * W * list E) : Completion A := fst (fst r).
Definition final {W E A} (r : Completion A * W * list E) : W := snd (fst r).
Definition events {W E A} (r : Completion A * W * list E) : list E := snd r.

(** ** content-script.ts *)

Module ContentScript.
Import Messages.

(** What the listener does to its surroundings. *)
Inductive AgentEvent : Type :=
| Activated (context : JsValue) (scriptId : option string) (outcome : Completion unit)
| Responded (response : JsValue).

Section Listener.
(** The state of the page the callback runs in. *)
Variable S : Type.

(** [onActivation?: (context, scriptId?) => void]: user code, which may
    change the page and may throw. *)
Definition Callback : Type := JsValue -> option string -> S -> Completion unit * S.

Definition sendResponse (response : JsValue) : M S AgentEvent unit :=
  fun s => (Normal tt, s, [Responded response]).

(** [onActivation?.(context, scriptId)]. *)
Definition call_onActivation (onActivation : option Callback)
    (context : JsValue) (scriptId : option string) : M S AgentEvent unit :=
  match onActivation with
  | None => ret tt
  | Some f => await (call (f context scriptId) (Activated context scriptId))
  end.

(** The arrow function passed to [browser.runtime.onMessage.addListener]. *)
Definition listener (onActivation : option Callback) (scriptId : option string)
    (message : JsValue) : M S AgentEvent unit :=
  isRequest <- lift (isRequestActivationMessage message) ;;
  if isRequest && Js.eq_opt_string (Js.get message "scriptId") scriptId then
    call_onActivation onActivation (Js.get message "context") scriptId ;;;
    sendResponse (createActivationSuccessMessage scriptId)
  else ret tt.

(** [setupActivation(onActivation, scriptId)] adds that listener to the
    listeners of [browser.runtime.onMessage]. *)
Definition setupActivation (onActivation : option Callback) (scriptId : option string)
    (onMessage : list (JsValue -> M S AgentEvent unit))
  : list (JsValue -> M S AgentEvent unit) :=
  onMessage ++ [listener onActivation scriptId].

(** What an observer of one listener run can count. *)
Definition activations (t : list AgentEvent) : list (JsValue * option string) :=
  flat_map (fun e => match e with
                     | Activated c s _ => [(c, s)]
                     | Responded _ => []
                     end) t.

Definition responses (t : list AgentEvent) : list JsValue :=
  flat_map (fun e => match e with
                     | Activated _ _ _ => []
                     | Responded r => [r]
                     end) t.
End Listener.

Arguments sendResponse {S}.
Arguments call_onActivation {S}.
Arguments listener {S}.
Arguments setupActivation {S}.

End ContentScript.

(** ** The service-worker module *)

Module Worker.
Import Messages.

(** [InjectContext = { tab, tabId }], the argument of the two hooks. *)
Record InjectContext : Type := mkInjectContext {
  ic_tab : JsObject;
  ic_tabId : JsValue
}.

(** The calls [activate] makes on the browser and on user code, each with
    the outcome it got.  An injection call is not awaited where it is made:
    its outcome is [Thrown] when the call itself threw, and [Normal p] when
    it returned a promise, which settled as [p]. *)
Inductive Event : Type :=
| SendMessage (tabId message : JsValue) (response : Completion JsValue)
| FilterTab (tab : JsObject) (verdict : Completion JsValue)
| BeforeInjection (context : InjectContext) (outcome : Completion unit)
| ExecuteScript (injection : JsObject) (outcome : Completion (Completion unit))
| InsertCSS (injection : JsObject) (outcome : Completion (Completion unit))
| AfterInjection (context : InjectContext) (outcome : Completion unit).

(** One entry of [scripts] / [styles]: a file name, or an options object
    for [executeScript] / [insertCSS] without its [target]. *)
Inductive Source : Type :=
| File (path : string)
| Options (o : JsObject).

(** [string | string[] | Injection | Injection[]]. *)
Inductive Sources : Type :=
| Single (s : Source)
| Multiple (l : list Source).

(** ToBoolean of a [scripts] / [styles] value: only the empty string is
    falsy ([undefined] is the [None] of the optional field). *)
Definition sources_truthy (s : Sources) : bool :=
  match s with
  | Single (File p) => negb (String.eqb p "")
  | _ => true
  end.

(** [Array.isArray(xs) ? xs : [xs]]. *)
Definition to_array (s : Sources) : list Source :=
  match s with
  | Single x => [x]
  | Multiple l => l
  end.

(** The [forEach] that fills [stringScripts] and [allScripts]. *)
Definition sort_sources (all : list Source) : list string * list JsObject :=
  fold_left
    (fun acc s =>
       match s with
       | File p => (fst acc ++ [p], snd acc)
       | Options o => (fst acc, snd acc ++ [o])
       end)
    all ([], []).

(** [allScripts] after the optional push of [{ files: stringScripts }]. *)
Definition injections (s : Sources) : list JsObject :=
  let sorted := sort_sources (to_array s) in
  let strings := fst sorted in
  let all := snd sorted in
  if Nat.ltb 0 (length strings)
  then all ++ [[("files", JArr (map JStr strings))]]
  else all.

(** [{ target: { tabId }, ...script }]. *)
Definition with_target (tabId : JsValue) (script : JsObject) : JsObject :=
  Js.spread [("target", JObj [("tabId", tabId)])] script.

Section Browser.
(** The state of the browser and of everything user code can touch. *)
Variable W : Type.

(** The three entry points of the WebExtension API the module uses.
    [sendMessage] is awaited inside a [try], so a throw of the call and a
    rejection of its promise are the same [Thrown].  The two injection calls
    are made inside [map] and awaited later, together: they either throw
    ([Thrown]) or return a promise with its settled outcome ([Normal p]). *)
Record Browser : Type := mkBrowser {
  tabs_sendMessage : JsValue -> JsValue -> W -> Completion JsValue * W;
  scripting_executeScript : JsObject -> W -> Completion (Completion unit) * W;
  scripting_insertCSS : JsObject -> W -> Completion (Completion unit) * W
}.

Definition Hook : Type := InjectContext -> W -> Completion unit * W.

Record InjectOptions : Type := mkInjectOptions {
  beforeInjection : option Hook;
  afterInjection : option Hook;
  scripts : Sources;
  styles : option Sources
}.

(** [inject: string | string[] | InjectOptions]. *)
Inductive Inject : Type :=
| InjectString (s : string)
| InjectStrings (l : list string)
| InjectObject (o : InjectOptions).

Record ContentScriptActivationOptions : Type := mkOptions {
  filterTab : option (JsObject -> W -> Completion JsValue * W);
  inject : Inject;
  scriptId : option string;
  injectOnClick : option bool
}.

(** The argument of [setupContentScriptActivation]:
    [string | string[] | ContentScriptActivationOptions]. *)
Inductive SetupOptions : Type :=
| OptionsString (s : string)
| OptionsStrings (l : list string)
| OptionsObject (o : ContentScriptActivationOptions).

Variable browser : Browser.

Definition Task (A : Type) : Type := M W Event A.

Definition activateContentScript
    (context : RequestActivationContext) (scriptId : option string) : Task bool :=
  try_catch
    (response <- await (call (tabs_sendMessage browser (tabId context)
                                (createRequestActivationMessage context None))
                             (SendMessage (tabId context)
                                (createRequestActivationMessage context None))) ;;
     isSuccess <- lift (isActivationSuccessMessage response) ;;
     if isSuccess
     then ret (Js.eq_opt_string (Js.get response "scriptId") scriptId)
     else ret false)
    (ret false).

(** [await hook?.(injectionContext)]. *)
Definition run_hook (hook : option Hook) (ev : InjectContext -> Completion unit -> Event)
    (context : InjectContext) : Task unit :=
  match hook with
  | None => ret tt
  | Some h => await (call (h context) (ev context))
  end.

(** [xs.map((x) => api({ target: { tabId }, ...x }))]: the calls are made
    in order and the promises they return are collected; a call that throws
    ends the [map], and the calls after it are not made. *)
Fixpoint dispatch (api : JsObject -> W -> Completion (Completion unit) * W)
    (ev : JsObject -> Completion (Completion unit) -> Event)
    (tabId : JsValue) (xs : list JsObject) : Task (list (Completion unit)) :=
  match xs with
  | [] => ret []
  | x :: rest =>
      p <- invoke (api (with_target tabId x)) (ev (with_target tabId x)) ;;
      ps <- dispatch api ev tabId rest ;;
      ret (p :: ps)
  end.

(** [await Promise.all(promises)]: rejects as soon as one of them does. *)
Definition promise_all (promises : list (Completion unit)) : Task unit :=
  if forallb (fun p => match p with Normal _ => true | Thrown => false end) promises
  then ret tt
  else lift Thrown.

(** The shorthand [{ scripts: inject }]. *)
Definition resolve_inject (inject : Inject) : InjectOptions :=
  match inject with
  | InjectString s => mkInjectOptions None None (Single (File s)) None
  | InjectStrings l => mkInjectOptions None None (Multiple (map File l)) None
  | InjectObject o => o
  end.

(** The shorthand [{ inject: { scripts: options } }]. *)
Definition resolve_options (options : SetupOptions) : ContentScriptActivationOptions :=
  match options with
  | OptionsString s =>
      mkOptions None (InjectObject (mkInjectOptions None None (Single (File s)) None))
                None None
  | OptionsStrings l =>
      mkOptions None
                (InjectObject (mkInjectOptions None None (Multiple (map File l)) None))
                None None
  | OptionsObject o => o
  end.

(** [filterTab && !filterTab(tab)]. *)
Definition rejected_by_filter
    (filterTab : option (JsObject -> W -> Completion JsValue * W)) (tab : JsObject)
  : Task bool :=
  match filterTab with
  | None => ret false
  | Some f =>
      verdict <- await (call (f tab) (FilterTab tab)) ;;
      ret (negb (Js.truthy verdict))
  end.

(** The inner [async function activate(tab)]. *)
Definition activate (resolvedOptions : ContentScriptActivationOptions)
    (tab : JsObject) : Task unit :=
  if negb (Js.truthy (Js.obj_get "id" tab)) then ret tt else
  let tabId := Js.obj_get "id" tab in
  skip <- rejected_by_filter (filterTab resolvedOptions) tab ;;
  if (skip : bool) then ret tt else
  let activationContext := mkContext tab tabId in
  isInjected <- activateContentScript activationContext (scriptId resolvedOptions) ;;
  let shouldInject := negb isInjected in
  if negb shouldInject then ret tt else
  let resolvedInject := resolve_inject (inject resolvedOptions) in
  let injectionContext := mkInjectContext tab tabId in
  run_hook (beforeInjection resolvedInject) BeforeInjection injectionContext ;;;
  scriptPromises <-
    (if sources_truthy (scripts resolvedInject)
     then dispatch (scripting_executeScript browser) ExecuteScript tabId
                   (injections (scripts resolvedInject))
     else ret []) ;;
  stylePromises <-
    (match styles resolvedInject with
     | Some st =>
         if sources_truthy st
         then dispatch (scripting_insertCSS browser) InsertCSS tabId (injections st)
         else ret []
     | None => ret []
     end) ;;
  promise_all (scriptPromises ++ stylePromises) ;;;
  run_hook (afterInjection resolvedInject) AfterInjection injectionContext ;;;
  _ <- activateContentScript activationContext (scriptId resolvedOptions) ;;
  ret tt.

(** What a call of [setupContentScriptActivation] leaves behind: the
    listener it added to [browser.action.onClicked], if any, and the
    value it returned ([None] is [undefined]). *)
Record Setup : Type := mkSetup {
  onClicked : option (JsObject -> Task unit);
  returned : option (JsObject -> Task unit)
}.

(** ToBoolean of [injectOnClick?: boolean]; [None] is [undefined]. *)
Definition flag_truthy (flag : option bool) : bool :=
  match flag with
  | Some b => b
  | None => false
  end.

(** [if (injectOnClick) browser.action.onClicked.addListener(activate);
     else return activate;] *)
Definition setupContentScriptActivation (options : SetupOptions) : Setup :=
  let resolvedOptions := resolve_options options in
  if flag_truthy (injectOnClick resolvedOptions)
  then mkSetup (Some (activate resolvedOptions)) None
  else mkSetup None (Some (activate resolvedOptions)).

End Browser.

Arguments tabs_sendMessage {W}.
Arguments scripting_executeScript {W}.
Arguments scripting_insertCSS {W}.
Arguments mkInjectOptions {W}.
Arguments beforeInjection {W}.
Arguments afterInjection {W}.
Arguments scripts {W}.
Arguments styles {W}.
Arguments InjectString {W}.
Arguments InjectStrings {W}.
Arguments InjectObject {W}.
Arguments mkOptions {W}.
Arguments filterTab {W}.
Arguments inject {W}.
Arguments scriptId {W}.
Arguments injectOnClick {W}.
Arguments OptionsString {W}.
Arguments OptionsStrings {W}.
Arguments OptionsObject {W}.
Arguments activateContentScript {W}.
Arguments run_hook {W}.
Arguments dispatch {W}.
Arguments promise_all {W}.
Arguments resolve_inject {W}.
Arguments resolve_options {W}.
Arguments rejected_by_filter {W}.
Arguments activate {W}.
Arguments onClicked {W}.
Arguments returned {W}.
Arguments setupContentScriptActivation {W}.

(** Observations on a log. *)
Definition is_send (e : Event) : bool :=
  match e with SendMessage _ _ _ => true | _ => false end.

Definition is_dispatch (e : Event) : bool :=
  match e with ExecuteScript _ _ | InsertCSS _ _ => true | _ => false end.

Definition is_after (e : Event) : bool :=
  match e with AfterInjection _ _ => true | _ => false end.

(** An injection call that did not end in a fulfilled promise: the call
    threw, or the promise it returned was rejected. *)
Definition dispatch_rejected (e : Event) : bool :=
  match e with
  | ExecuteScript _ (Normal (Normal _)) | InsertCSS _ (Normal (Normal _)) => false
  | ExecuteScript _ _ | InsertCSS _ _ => true
  | _ => false
  end.

(** An injection call that threw instead of returning a promise. *)
Definition dispatch_threw (e : Event) : bool :=
  match e with
  | ExecuteScript _ Thrown | InsertCSS _ Thrown => true
  | _ => false
  end.

(** The messages put on the channel, in order. *)
Definition sent (t : list Event) : list JsValue :=
  flat_map (fun e => match e with SendMessage _ m _ => [m] | _ => [] end) t.

(** The options objects handed to [executeScript], in order. *)
Definition script_dispatches (t : list Event) : list JsObject :=
  flat_map (fun e => match e with ExecuteScript i _ => [i] | _ => [] end) t.

(** The options objects handed to [insertCSS], in order. *)
Definition style_dispatches (t : list Event) : list JsObject :=
  flat_map (fun e => match e with InsertCSS i _ => [i] | _ => [] end) t.

End Worker.

(** ** A tab with content scripts

    The browser seen from the service worker when it talks to one tab.  The
    message transport and the injection primitives belong to the host
    platform; they follow the specification's description of them: a
    request/response channel keyed by the target identifier that fails when
    no listener answers, and an injection capability that runs the listed
    files in the target. *)

Module Tab.
Import Messages ContentScript.

Section Page.
(** The state of the page that activation callbacks act on. *)
Variable S : Type.

(** A content script file: the arguments of its [setupActivation] call. *)
Record ContentScriptFile : Type := mkFile {
  file_onActivation : option (Callback S);
  file_scriptId : option string
}.

Record World : Type := mkWorld {
  tab_id : Z;
  onMessage : list (JsValue -> M S AgentEvent unit);
  page : S;
  page_log : list AgentEvent;
  extension_files : list (string * ContentScriptFile)
}.

(** Every listener of the tab receives the message, in registration
    order; an exception in one listener does not reach the others. *)
Fixpoint deliver (ls : list (JsValue -> M S AgentEvent unit)) (message : JsValue)
    (s : S) : S * list AgentEvent :=
  match ls with
  | [] => (s, [])
  | l :: rest =>
      match l message s with
      | (_, s1, t1) =>
          match deliver rest message s1 with
          | (s2, t2) => (s2, t1 ++ t2)
          end
      end
  end.

(** The sender's promise: fulfilled with the first response, rejected
    when nobody answered. *)
Definition reply (t : list AgentEvent) : Completion JsValue :=
  match responses t with
  | r :: _ => Normal r
  | [] => Thrown
  end.

Definition sendMessage (tabId message : JsValue) (w : World)
  : Completion JsValue * World :=
  match tabId with
  | JNum n =>
      if Z.eqb n (tab_id w) then
        match deliver (onMessage w) message (page w) with
        | (s, t) =>
            (reply t,
             mkWorld (tab_id w) (onMessage w) s (page_log w ++ t) (extension_files w))
        end
      else (Thrown, w)
  | _ => (Thrown, w)
  end.

Fixpoint lookup_file (p : string) (fs : list (string * ContentScriptFile))
  : option ContentScriptFile :=
  match fs with
  | [] => None
  | (q, f) :: rest => if String.eqb p q then Some f else lookup_file p rest
  end.

(** Running the listed files: each one calls [setupActivation]. *)
Fixpoint run_files (files : list JsValue) (w : World) : Completion unit * World :=
  match files with
  | [] => (Normal tt, w)
  | JStr p :: rest =>
      match lookup_file p (extension_files w) with
      | Some f =>
          run_files rest
            (mkWorld (tab_id w)
               (setupActivation (file_onActivation f) (file_scriptId f) (onMessage w))
               (page w) (page_log w) (extension_files w))
      | None => (Thrown, w)
      end
  | _ :: _ => (Thrown, w)
  end.

Definition targets (injection : JsObject) (w : World) : bool :=
  match Js.get (Js.obj_get "target" injection) "tabId" with
  | JNum n => Z.eqb n (tab_id w)
  | _ => false
  end.

(** The injection calls of this host always return a promise; a wrong
    target or a file the extension does not ship rejects it. *)
Definition executeScript (injection : JsObject) (w : World)
  : Completion (Completion unit) * World :=
  if targets injection w then
    match Js.obj_get "files" injection with
    | JArr files =>
        match run_files files w with
        | (p, w1) => (Normal p, w1)
        end
    | _ => (Normal (Normal tt), w)
    end
  else (Normal Thrown, w).

Definition insertCSS (injection : JsObject) (w : World)
  : Completion (Completion unit) * World :=
  if targets injection w then (Normal (Normal tt), w) else (Normal Thrown, w).

Definition browser : Worker.Browser World :=
  Worker.mkBrowser World sendMessage executeScript insertCSS.

End Page.

Arguments mkFile {S}.
Arguments mkWorld {S}.
Arguments tab_id {S}.
Arguments onMessage {S}.
Arguments page {S}.
Arguments page_log {S}.
Arguments extension_files {S}.
Arguments browser {S}.

(** A callback that counts its activations in the page. *)
Definition count_activation : Callback nat :=
  fun _ _ n => (Normal tt, Datatypes.S n).

(** A callback that throws. *)
Definition failing_callback : Callback nat :=
  fun _ _ n => (Thrown, n).

End Tab.

(** ** Vocabulary of the specification *)

Module Spec.
Import Messages ContentScript Worker.

(** Step 4 of the controller, "Decide": a probe is successful only if the
    response is a well-formed ActivationSuccessMessage and its instance tag
    strictly equals the configured one.  A failed round trip is no success. *)
Definition probe_succeeded (scriptId : option string) (response : Completion JsValue)
  : bool :=
  match response with
  | Normal v =>
      match isActivationSuccessMessage v with
      | Normal true => Js.eq_opt_string (Js.get v "scriptId") scriptId
      | _ => false
      end
  | Thrown => false
  end.

(** The response to the first message a trigger put on the channel. *)
Fixpoint first_probe (t : list Event) : option (Completion JsValue) :=
  match t with
  | [] => None
  | SendMessage _ _ r :: _ => Some r
  | _ :: rest => first_probe rest
  end.

(** A call other than a probe that failed. *)
Definition failed_outside_probe (e : Event) : bool :=
  match e with
  | FilterTab _ Thrown
  | BeforeInjection _ Thrown
  | ExecuteScript _ Thrown
  | ExecuteScript _ (Normal Thrown)
  | InsertCSS _ Thrown
  | InsertCSS _ (Normal Thrown)
  | AfterInjection _ Thrown => true
  | _ => false
  end.

(** The raw file references of a source list, in order. *)
Definition file_references (l : list Source) : list string :=
  flat_map (fun s => match s with File p => [p] | Options _ => [] end) l.

(** The structured option objects of a source list, in order. *)
Definition option_objects (l : list Source) : list JsObject :=
  flat_map (fun s => match s with File _ => [] | Options o => [o] end) l.

(** One files-list dispatch for all raw file references, if there are any. *)
Definition merged_files (l : list Source) : list JsObject :=
  match file_references l with
  | [] => []
  | p :: ps => [[("files", JArr (map JStr (p :: ps)))]]
  end.

(** The dispatches a configuration asks for: nothing for a falsy value. *)
Definition planned (s : option Sources) : list JsObject :=
  match s with
  | Some s0 => if sources_truthy s0 then injections s0 else []
  | None => []
  end.

(** The listener's guard: a well-formed request whose tag matches. *)
Definition accepted (scriptId : option string) (message : JsValue) : bool :=
  match isRequestActivationMessage message with
  | Normal true => Js.eq_opt_string (Js.get message "scriptId") scriptId
  | _ => false
  end.

(** The callback, when there is one, returns without throwing. *)
Definition returns_normally {S} (onActivation : option (Callback S))
    (context : JsValue) (scriptId : option string) (s : S) : Prop :=
  match onActivation with
  | Some f => fst (f context scriptId s) = Normal tt
  | None => True
  end.

Definition is_normal {A} (c : Completion A) : bool :=
  match c with Normal _ => true | Thrown => false end.

(** The configuration of the cold-target scenario: [scripts = ["a.js"]],
    [styles = ["b.css"]], both hooks present, no filter. *)
Definition cold_scenario {W} (before after : Hook W) (scriptId : option string)
    (injectOnClick : option bool) : ContentScriptActivationOptions W :=
  mkOptions None
    (InjectObject
       (mkInjectOptions (Some before) (Some after)
          (Multiple [File "a.js"]) (Some (Multiple [File "b.css"]))))
    scriptId injectOnClick.

(** An injection call that returned a promise which was fulfilled. *)
Definition fulfilled (o : Completion (Completion unit)) : bool :=
  match o with
  | Normal (Normal _) => true
  | _ => false
  end.

(** An injection call that threw. *)
Definition threw (o : Completion (Completion unit)) : bool :=
  match o with
  | Thrown => true
  | Normal _ => false
  end.

(** The log of a batch of dispatches [xs] of which the calls that were made
    came out as [os], one outcome for each call, in order. *)
Definition dispatch_log (ev : JsObject -> Completion (Completion unit) -> Event)
    (tabId : JsValue) (xs : list JsObject) (os : list (Completion (Completion unit)))
  : list Event :=
  map (fun xo => ev (with_target tabId (fst xo)) (snd xo)) (combine xs os).

(** *** The per-trigger state machine

    The ways one trigger event can run, step by step as in section 4.1 of
    the specification: each constructor of [Outcome] is one path through
    [activate], with the run (result, final state, log) it produces. *)
Section Trigger.
Context {W : Type}.
Variable browser : Browser W.
Variable options : ContentScriptActivationOptions W.
Variable tab : JsObject.

Definition target : JsValue := Js.obj_get "id" tab.
Definition probe_message : JsValue :=
  createRequestActivationMessage (mkContext tab target) None.
Definition probe (w : W) : Completion JsValue * W :=
  tabs_sendMessage browser target probe_message w.
Definition probe_event (r : Completion JsValue) : Event :=
  SendMessage target probe_message r.
Definition hook_context : InjectContext := mkInjectContext tab target.
Definition script_plan : list JsObject :=
  planned (Some (scripts (resolve_inject (inject options)))).
Definition style_plan : list JsObject :=
  planned (styles (resolve_inject (inject options))).

(** Steps 1 and 2: the target resolves and the filter lets it through. *)
Inductive Gate (w : W) : list Event -> W -> Prop :=
| gate_open :
    filterTab options = None ->
    Gate w [] w
| gate_pass g v w1 :
    filterTab options = Some g ->
    g tab w = (Normal v, w1) ->
    Js.truthy v = true ->
    Gate w [FilterTab tab (Normal v)] w1.

(** Steps 3 and 4: the first probe was sent and did not succeed. *)
Inductive Cold (w : W) : list Event -> W -> Prop :=
| cold pre w1 r w2 :
    Gate w pre w1 ->
    probe w1 = (r, w2) ->
    probe_succeeded (scriptId options) r = false ->
    Cold w (pre ++ [probe_event r]) w2.

(** Step 5 up to the dispatches: the pre-injection hook returned and
    every planned dispatch was made and returned a promise; the promises
    settled as [ps]. *)
Inductive Dispatched (w : W) : list Event -> W -> list (Completion unit) -> Prop :=
| dispatched t w2 tb w3 ps1 w4 ps2 w5 :
    Cold w t w2 ->
    run_hook (beforeInjection (resolve_inject (inject options)))
             BeforeInjection hook_context w2 = (Normal tt, w3, tb) ->
    dispatch (scripting_executeScript browser) ExecuteScript target script_plan w3
      = (Normal ps1, w4,
         dispatch_log ExecuteScript target script_plan (map Normal ps1)) ->
    length ps1 = length script_plan ->
    dispatch (scripting_insertCSS browser) InsertCSS target style_plan w4
      = (Normal ps2, w5,
         dispatch_log InsertCSS target style_plan (map Normal ps2)) ->
    length ps2 = length style_plan ->
    Dispatched w
      (t ++ tb ++ dispatch_log ExecuteScript target script_plan (map Normal ps1)
         ++ dispatch_log InsertCSS target style_plan (map Normal ps2))
      w5 (ps1 ++ ps2).

(** The outcomes of a batch that a throwing call cut short: promises for
    the calls before it, then the throw. *)
Definition cut_short (os : list (Completion (Completion unit))) (planned : nat) : Prop :=
  exists ps, os = map Normal ps ++ [Thrown] /\ length ps < planned.

(** Step 5 cut short: the pre-injection hook returned, and one of the
    injection calls threw.  The calls planned after it were not made: when a
    script call throws, no style is dispatched at all. *)
Inductive Interrupted (w : W) : list Event -> W -> Prop :=
| interrupted_in_scripts t w2 tb w3 os w4 :
    Cold w t w2 ->
    run_hook (beforeInjection (resolve_inject (inject options)))
             BeforeInjection hook_context w2 = (Normal tt, w3, tb) ->
    dispatch (scripting_executeScript browser) ExecuteScript target script_plan w3
      = (Thrown, w4, dispatch_log ExecuteScript target script_plan os) ->
    cut_short os (length script_plan) ->
    Interrupted w (t ++ tb ++ dispatch_log ExecuteScript target script_plan os) w4
| interrupted_in_styles t w2 tb w3 ps1 w4 os w5 :
    Cold w t w2 ->
    run_hook (beforeInjection (resolve_inject (inject options)))
             BeforeInjection hook_context w2 = (Normal tt, w3, tb) ->
    dispatch (scripting_executeScript browser) ExecuteScript target script_plan w3
      = (Normal ps1, w4,
         dispatch_log ExecuteScript target script_plan (map Normal ps1)) ->
    length ps1 = length script_plan ->
    dispatch (scripting_insertCSS browser) InsertCSS target style_plan w4
      = (Thrown, w5, dispatch_log InsertCSS target style_plan os) ->
    cut_short os (length style_plan) ->
    Interrupted w
      (t ++ tb ++ dispatch_log ExecuteScript target script_plan (map Normal ps1)
         ++ dispatch_log InsertCSS target style_plan os)
      w5.

Inductive Outcome (w : W) : Completion unit * W * list Event -> Prop :=
| no_target :
    Js.truthy target = false ->
    Outcome w (Normal tt, w, [])
| filter_failed g w1 :
    Js.truthy target = true ->
    filterTab options = Some g ->
    g tab w = (Thrown, w1) ->
    Outcome w (Thrown, w1, [FilterTab tab Thrown])
| filtered_out g v w1 :
    Js.truthy target = true ->
    filterTab options = Some g ->
    g tab w = (Normal v, w1) ->
    Js.truthy v = false ->
    Outcome w (Normal tt, w1, [FilterTab tab (Normal v)])
| already_active pre w1 r w2 :
    Js.truthy target = true ->
    Gate w pre w1 ->
    probe w1 = (r, w2) ->
    probe_succeeded (scriptId options) r = true ->
    Outcome w (Normal tt, w2, pre ++ [probe_event r])
| before_failed t w2 w3 tb :
    Js.truthy target = true ->
    Cold w t w2 ->
    run_hook (beforeInjection (resolve_inject (inject options)))
             BeforeInjection hook_context w2 = (Thrown, w3, tb) ->
    Outcome w (Thrown, w3, t ++ tb)
| dispatch_interrupted t w5 :
    Js.truthy target = true ->
    Interrupted w t w5 ->
    Outcome w (Thrown, w5, t)
| dispatch_failed t w5 ps :
    Js.truthy target = true ->
    Dispatched w t w5 ps ->
    forallb is_normal ps = false ->
    Outcome w (Thrown, w5, t)
| after_failed t w5 ps w6 ta :
    Js.truthy target = true ->
    Dispatched w t w5 ps ->
    forallb is_normal ps = true ->
    run_hook (afterInjection (resolve_inject (inject options)))
             AfterInjection hook_context w5 = (Thrown, w6, ta) ->
    Outcome w (Thrown, w6, t ++ ta)
| completed t w5 ps w6 ta r w7 :
    Js.truthy target = true ->
    Dispatched w t w5 ps ->
    forallb is_normal ps = true ->
    run_hook (afterInjection (resolve_inject (inject options)))
             AfterInjection hook_context w5 = (Normal tt, w6, ta) ->
    probe w6 = (r, w7) ->
    Outcome w (Normal tt, w7, t ++ ta ++ [probe_event r]).
End Trigger.

End Spec.

(** ** Concrete tabs and configurations *)

Module Examples.
Import Messages ContentScript Worker.

(** The tab a click is reported for. *)
Definition clicked_tab : JsObject :=
  [("id", JNum 1); ("url", JStr "https://example.org/")].

(** A target descriptor without an id, as a closed tab has. *)
Definition closed_tab : JsObject := [("url", JStr "https://example.org/")].

(** The content script of the extension: it counts its activations. *)
Definition content_script (scriptId : option string) : Tab.ContentScriptFile nat :=
  Tab.mkFile (Some Tab.count_activation) scriptId.

(** Tab 1 with the content script already running. *)
Definition live_page (scriptId : option string) : Tab.World nat :=
  Tab.mkWorld 1
    (setupActivation (Some Tab.count_activation) scriptId [])
    0 [] [("content-script.js", content_script scriptId)].

(** Tab 1 before anything was injected; the extension ships no
    [missing.js]. *)
Definition fresh_page (scriptId : option string) : Tab.World nat :=
  Tab.mkWorld 1 [] 0 [] [("content-script.js", content_script scriptId)].

(** [setupContentScriptActivation({ inject: file, scriptId, injectOnClick })]. *)
Definition controller (file : string) (scriptId : option string)
    (injectOnClick : option bool) : ContentScriptActivationOptions (Tab.World nat) :=
  mkOptions None (InjectString file) scriptId injectOnClick.

(** A click on tab 1 with controller and agent both set up with tag ["x"]. *)
Definition tagged_click : Completion unit * Tab.World nat * list Event :=
  activate Tab.browser (controller "content-script.js" (Some "x") (Some true))
           clicked_tab (live_page (Some "x")).

(** The same click with no tag on either side. *)
Definition untagged_click : Completion unit * Tab.World nat * list Event :=
  activate Tab.browser (controller "content-script.js" None (Some true))
           clicked_tab (live_page None).

(** A browser in which no tab answers and every injection is applied; its
    state counts the injections. *)
Definition silent_browser : Browser nat :=
  mkBrowser nat
    (fun _ _ n => (Thrown, n))
    (fun _ n => (Normal (Normal tt), S n))
    (fun _ n => (Normal (Normal tt), S n)).

Definition idle_hook : Hook nat := fun _ n => (Normal tt, n).

Definition tagged_request : JsValue :=
  createRequestActivationMessage (mkContext clicked_tab (JNum 1)) (Some "x").

Definition untagged_request : JsValue :=
  createRequestActivationMessage (mkContext clicked_tab (JNum 1)) None.

End Examples.

(** ** Further observations on a trigger's log *)

Module Observers.
Import Messages Worker.

(** The verdicts the filter gave, in order. *)
Definition filter_calls (t : list Event) : list (Completion JsValue) :=
  flat_map (fun e => match e with FilterTab _ r => [r] | _ => [] end) t.

(** The outcomes of the calls of [beforeInjection]. *)
Definition before_calls (t : list Event) : list (Completion unit) :=
  flat_map (fun e => match e with BeforeInjection _ r => [r] | _ => [] end) t.

(** The outcomes of the calls of [afterInjection]. *)
Definition after_calls (t : list Event) : list (Completion unit) :=
  flat_map (fun e => match e with AfterInjection _ r => [r] | _ => [] end) t.

(** What a call made for a trigger on [tab] has to look like: a message
    goes to [tab.id], the filter is asked about [tab], a hook receives
    [{ tab, tabId: tab.id }], and an injection call is handed
    [{ target: { tabId: tab.id }, ...x }] for an options object [x] of the
    configured plan. *)
Definition addresses {W} (options : ContentScriptActivationOptions W)
    (tab : JsObject) (e : Event) : Prop :=
  match e with
  | SendMessage t _ _ => t = Js.obj_get "id" tab
  | FilterTab tb _ => tb = tab
  | BeforeInjection c _ | AfterInjection c _ =>
      c = mkInjectContext tab (Js.obj_get "id" tab)
  | ExecuteScript i _ =>
      exists x, In x (Spec.script_plan options) /\
                i = with_target (Js.obj_get "id" tab) x
  | InsertCSS i _ =>
      exists x, In x (Spec.style_plan options) /\
                i = with_target (Js.obj_get "id" tab) x
  end.

(** The property names of an object, in order. *)
Definition keys (o : JsObject) : list string := map fst o.

End Observers.

(** ** A sequence of clicks on one tab *)

Module Session.
Import Messages ContentScript Worker.

Section Clicks.
Variable S : Type.
Variable options : ContentScriptActivationOptions (Tab.World S).
Variable tab : JsObject.

(** [n] clicks on the extension button, one after the other: the state of
    the tab after the last one, and the logs of the triggers in order. *)
Fixpoint clicks (n : nat) (w : Tab.World S) : Tab.World S * list (list Event) :=
  match n with
  | O => (w, [])
  | Datatypes.S m =>
      match activate Tab.browser options tab w with
      | (_, w1, t) =>
          match clicks m w1 with
          | (w2, ts) => (w2, t :: ts)
          end
      end
  end.
End Clicks.

Arguments clicks {S}.

End Session.

(** ** More hooks, filters and options to run the controller with *)

Module Fixtures.
Import Messages ContentScript Worker.

Definition failing_hook : Hook nat := fun _ n => (Thrown, n).

(** [filterTab: (tab) => false]. *)
Definition refusing_filter : JsObject -> nat -> Completion JsValue * nat :=
  fun _ n => (Normal (JBool false), n).

(** The options object of the README's section on customised injection. *)
Definition custom_script : JsObject :=
  [("files", JArr [JStr "content-script.js"]); ("injectImmediately", JBool false)].

(** A message of some other part of the extension on the same channel. *)
Definition foreign_message : JsValue := JObj [("type", JStr "ping")].

(** A browser in which no tab answers and [executeScript] refuses its
    argument on the spot, by throwing; [insertCSS] applies the style and
    counts it. *)
Definition strict_browser : Browser nat :=
  mkBrowser nat
    (fun _ _ n => (Thrown, n))
    (fun _ n => (Thrown, n))
    (fun _ n => (Normal (Normal tt), S n)).

(** An options object that names a tab of its own. *)
Definition retargeted_script : JsObject :=
  [("target", JObj [("tabId", JNum 99)]); ("files", JArr [JStr "content-script.js"])].

End Fixtures.

(** * Properties *)

Section Runs.
Context {W E : Type}.

Lemma run_bind_normal {A B} (m : M W E A) (k : A -> M W E B) w a w1 t1 :
  m w = (Normal a, w1, t1) ->
  bind m k w = (result (k a w1), final (k a w1), t1 ++ events (k a w1)).
Proof.
  intros Hm. unfold bind, result, final, events. rewrite Hm.
  destruct (k a w1) as [[r w2] t2]. reflexivity.
Qed.

Lemma run_bind_step {A B} (m : M W E A) (k : A -> M W E B) w a w1 t1 r w2 t2 :
  m w = (Normal a, w1, t1) ->
  k a w1 = (r, w2, t2) ->
  bind m k w = (r, w2, t1 ++ t2).
Proof. intros Hm Hk. unfold bind. now rewrite Hm, Hk. Qed.

Lemma run_with_log {A} (x : Completion A * W * list E) r w t t' :
  x = (r, w, t') -> t' = t -> x = (r, w, t).
Proof. now intros -> <-. Qed.

Lemma run_bind_thrown {A B} (m : M W E A) (k : A -> M W E B) w w1 t1 :
  m w = (Thrown, w1, t1) -> bind m k w = (Thrown, w1, t1).
Proof. intros Hm. unfold bind. rewrite Hm. reflexivity. Qed.
End Runs.

Module MessagesFacts.
Import Messages.

(** C10. Constructors and discriminators round-trip and exclude each other:
    a request built by [createRequestActivationMessage] is recognised as a
    request and not as a success, and a success built by
    [createActivationSuccessMessage] is recognised as a success and not as
    a request, for every context and every optional tag. *)
Theorem constructors_roundtrip (c : RequestActivationContext) (s : option string) :
  isRequestActivationMessage (createRequestActivationMessage c s) = Normal true /\
  isActivationSuccessMessage (createRequestActivationMessage c s) = Normal false /\
  isActivationSuccessMessage (createActivationSuccessMessage s) = Normal true /\
  isRequestActivationMessage (createActivationSuccessMessage s) = Normal false.
Proof. repeat split; reflexivity. Qed.

End MessagesFacts.

Module ContentScriptFacts.
Import Messages ContentScript Spec.

Lemma eq_opt_string_true (v : JsValue) (s : option string) :
  Js.eq_opt_string v s = true -> v = Js.of_opt_string s.
Proof.
  destruct v, s; simpl; try discriminate; try reflexivity.
  intros H. apply String.eqb_eq in H. now subst.
Qed.

Lemma call_onActivation_run {S} (onActivation : option (Callback S)) c sid (s : S) :
  call_onActivation onActivation c sid s =
    match onActivation with
    | None => (Normal tt, s, [])
    | Some f => (fst (f c sid s), snd (f c sid s), [Activated c sid (fst (f c sid s))])
    end.
Proof.
  destruct onActivation as [f|]; [|reflexivity].
  unfold call_onActivation, await, call, bind, lift.
  destruct (f c sid s) as [[u|] s1]; reflexivity.
Qed.

(** When the guard holds, the listener is the callback followed by the reply. *)
Lemma listener_accepting {S} (onActivation : option (Callback S)) sid message (s : S) :
  accepted sid message = true ->
  listener onActivation sid message s =
    bind (call_onActivation onActivation (Js.get message "context") sid)
         (fun _ => sendResponse (createActivationSuccessMessage sid)) s.
Proof.
  unfold accepted, listener. intros Hacc.
  destruct (isRequestActivationMessage message) as [[|]|]; try discriminate.
  unfold bind at 1, lift. simpl. rewrite Hacc.
  destruct (bind _ _ s) as [[r s1] t]. reflexivity.
Qed.

Lemma listener_ignoring {S} (onActivation : option (Callback S)) sid message (s : S) :
  accepted sid message = false ->
  events (listener onActivation sid message s) = [] /\
  final (listener onActivation sid message s) = s.
Proof.
  unfold accepted, listener, bind, lift. intros Hacc.
  destruct (isRequestActivationMessage message) as [[|]|]; simpl.
  - rewrite Hacc. split; reflexivity.
  - split; reflexivity.
  - split; reflexivity.
Qed.

(** C4. For every message the listener receives: if it is not a
    well-formed ActivationRequestMessage, or its tag is not strictly equal
    to the agent's tag (one of them absent included), the agent sends no
    response, does not invoke its callback and leaves the page as it was.
    Otherwise the callback, if present, is invoked exactly once with the
    message's context and the tag, and the page is left as that one call
    left it.  Then, if the callback returned (or there is none), the agent
    replies exactly once with an ActivationSuccessMessage that carries the
    tag of the request; if the callback threw, the listener throws with it
    and no reply is sent.  Equality of tags is strict: an absent tag never
    equals a present one, in either direction. *)
Theorem listener_answers_matching_requests_only {S}
    (onActivation : option (Callback S)) (scriptId : option string)
    (message : JsValue) (s : S) :
  (isRequestActivationMessage message <> Normal true \/
   Js.eq_opt_string (Js.get message "scriptId") scriptId = false ->
     responses (events (listener onActivation scriptId message s)) = [] /\
     activations (events (listener onActivation scriptId message s)) = [] /\
     events (listener onActivation scriptId message s) = [] /\
     final (listener onActivation scriptId message s) = s) /\
  (isRequestActivationMessage message = Normal true ->
   Js.eq_opt_string (Js.get message "scriptId") scriptId = true ->
     activations (events (listener onActivation scriptId message s)) =
       match onActivation with
       | Some _ => [(Js.get message "context", scriptId)]
       | None => []
       end /\
     final (listener onActivation scriptId message s) =
       match onActivation with
       | Some f => snd (f (Js.get message "context") scriptId s)
       | None => s
       end /\
     (returns_normally onActivation (Js.get message "context") scriptId s ->
        result (listener onActivation scriptId message s) = Normal tt /\
        events (listener onActivation scriptId message s) =
          match onActivation with
          | Some _ => [Activated (Js.get message "context") scriptId (Normal tt);
                       Responded (createActivationSuccessMessage scriptId)]
          | None => [Responded (createActivationSuccessMessage scriptId)]
          end /\
        responses (events (listener onActivation scriptId message s)) =
          [createActivationSuccessMessage scriptId] /\
        isActivationSuccessMessage (createActivationSuccessMessage scriptId) = Normal true /\
        Js.get (createActivationSuccessMessage scriptId) "scriptId" =
          Js.get message "scriptId") /\
     (forall f, onActivation = Some f ->
        fst (f (Js.get message "context") scriptId s) = Thrown ->
        result (listener onActivation scriptId message s) = Thrown /\
        events (listener onActivation scriptId message s) =
          [Activated (Js.get message "context") scriptId Thrown] /\
        responses (events (listener onActivation scriptId message s)) = [])) /\
  (forall tag : string,
     Js.eq_opt_string JUndefined (Some tag) = false /\
     Js.eq_opt_string (JStr tag) None = false).
Proof.
  split; [|split; [|split; reflexivity]].
  - intros Hno.
    assert (Hacc : accepted scriptId message = false).
    { unfold accepted. destruct Hno as [Hno | Hno].
      - destruct (isRequestActivationMessage message) as [[|]|]; congruence.
      - rewrite Hno. destruct (isRequestActivationMessage message) as [[|]|]; reflexivity. }
    destruct (listener_ignoring onActivation scriptId message s Hacc) as [Hev Hfin].
    rewrite Hev. repeat split; try reflexivity. exact Hfin.
  - intros Hreq Htag.
    assert (Hacc : accepted scriptId message = true).
    { unfold accepted. now rewrite Hreq. }
    assert (Hsame : Js.get (createActivationSuccessMessage scriptId) "scriptId"
                    = Js.get message "scriptId")
      by (symmetry; now apply eq_opt_string_true).
    rewrite (listener_accepting onActivation scriptId message s Hacc).
    unfold bind. rewrite call_onActivation_run.
    destruct onActivation as [f|]; simpl.
    + unfold returns_normally.
      destruct (f (Js.get message "context") scriptId s) as [[[]|] s1] eqn:Hf; simpl.
      * split; [reflexivity|]. split; [reflexivity|]. split.
        -- intros _. repeat split. exact Hsame.
        -- intros f' [= <-]. rewrite Hf. discriminate.
      * split; [reflexivity|]. split; [reflexivity|]. split.
        -- discriminate.
        -- intros f' [= <-] _. repeat split.
    + split; [reflexivity|]. split; [reflexivity|]. split.
      * intros _. repeat split. exact Hsame.
      * intros f' Hf'. discriminate.
Qed.

(** A callback that throws keeps the reply from being sent. *)
Lemma throwing_callback_leaves_request_unanswered :
  responses (events (listener (Some Tab.failing_callback) None
                       (createRequestActivationMessage (mkContext [] (JNum 1)) None) 0)) = [].
Proof. reflexivity. Qed.

End ContentScriptFacts.

Module WorkerFacts.
Import Messages Worker Spec.

#[local] Arguments target : simpl never.
#[local] Arguments probe_message : simpl never.
#[local] Arguments script_plan : simpl never.
#[local] Arguments style_plan : simpl never.
#[local] Arguments dispatch_log : simpl never.
#[local] Arguments hook_context : simpl never.

Section Stages.
Context {W : Type}.
Variable browser : Browser W.

Lemma activateContentScript_run (context : RequestActivationContext) sid (w : W) :
  activateContentScript browser context sid w =
    (Normal (probe_succeeded sid
               (fst (tabs_sendMessage browser (tabId context)
                       (createRequestActivationMessage context None) w))),
     snd (tabs_sendMessage browser (tabId context)
            (createRequestActivationMessage context None) w),
     [SendMessage (tabId context) (createRequestActivationMessage context None)
        (fst (tabs_sendMessage browser (tabId context)
                (createRequestActivationMessage context None) w))]).
Proof.
  unfold activateContentScript, try_catch, await, call, bind, lift, ret.
  destruct (tabs_sendMessage browser (tabId context) _ w) as [[v|] w1]; simpl.
  - destruct (isActivationSuccessMessage v) as [[|]|]; reflexivity.
  - reflexivity.
Qed.

Lemma run_hook_run (hook : option (Hook W)) ev c (w : W) :
  run_hook hook ev c w =
    match hook with
    | None => (Normal tt, w, [])
    | Some h => (fst (h c w), snd (h c w), [ev c (fst (h c w))])
    end.
Proof.
  destruct hook as [h|]; [|reflexivity].
  unfold run_hook, await, call, bind, lift.
  destruct (h c w) as [[u|] w1]; reflexivity.
Qed.

Lemma dispatch_run api ev id xs : forall (w : W),
  (exists ps w',
     dispatch api ev id xs w = (Normal ps, w', dispatch_log ev id xs (map Normal ps)) /\
     length ps = length xs) \/
  (exists os w',
     dispatch api ev id xs w = (Thrown, w', dispatch_log ev id xs os) /\
     cut_short os (length xs)).
Proof.
  induction xs as [|x xs IH]; intros w.
  - left. exists [], w. split; reflexivity.
  - cbn [dispatch]. unfold bind, invoke, ret.
    destruct (api (with_target id x) w) as [[p|] w1].
    + destruct (IH w1) as [(ps & w' & Hrun & Hlen) | (os & w' & Hrun & ps & Hos & Hlen)].
      * left. exists (p :: ps), w'. split; [|simpl; congruence].
        rewrite Hrun. simpl. now rewrite app_nil_r.
      * right. exists (Normal p :: os), w'. split.
        -- rewrite Hrun. unfold dispatch_log. reflexivity.
        -- exists (p :: ps). subst os. split; [reflexivity | simpl; lia].
    + right. exists [Thrown], w1. split.
      * unfold dispatch_log. cbn [combine]. now rewrite combine_nil.
      * exists []. split; [reflexivity | simpl; lia].
Qed.


Lemma script_dispatch_plan api ev id (s : Sources) :
  (if sources_truthy s then dispatch (W:=W) api ev id (injections s) else ret [])
  = dispatch api ev id (planned (Some s)).
Proof. simpl. destruct (sources_truthy s); reflexivity. Qed.

Lemma style_dispatch_plan api ev id (s : option Sources) :
  match s with
  | Some st => if sources_truthy st then dispatch (W:=W) api ev id (injections st) else ret []
  | None => ret []
  end = dispatch api ev id (planned s).
Proof. destruct s as [st|]; simpl; [destruct (sources_truthy st)|]; reflexivity. Qed.

Lemma promise_all_run ps (w : W) :
  promise_all ps w = (if forallb is_normal ps then Normal tt else Thrown, w, []).
Proof.
  unfold promise_all, is_normal. destruct (forallb _ ps); reflexivity.
Qed.


Lemma rejected_by_filter_run (f : option (JsObject -> W -> Completion JsValue * W))
    tab (w : W) :
  rejected_by_filter f tab w =
    match f with
    | None => (Normal false, w, [])
    | Some g =>
        (match fst (g tab w) with
         | Normal v => Normal (negb (Js.truthy v))
         | Thrown => Thrown
         end, snd (g tab w), [FilterTab tab (fst (g tab w))])
    end.
Proof.
  destruct f as [g|]; [|reflexivity].
  unfold rejected_by_filter, await, call, bind, lift, ret.
  destruct (g tab w) as [[v|] w1]; reflexivity.
Qed.



Lemma Outcome_log options tab (w : W) c w' t t' :
  Outcome browser options tab w (c, w', t) -> t = t' ->
  Outcome browser options tab w (c, w', t').
Proof. now intros H <-. Qed.

Ltac reassoc := repeat rewrite <- app_assoc; cbn [app]; repeat rewrite app_nil_r.
Tactic Notation "by_path" open_constr(path) :=
  eapply Outcome_log; [eapply path; eauto | reassoc; reflexivity].

Lemma activate_outcome options tab (w : W) :
  Outcome browser options tab w (activate browser options tab w).
Proof.
  unfold activate. fold (target tab).
  destruct (Js.truthy (target tab)) eqn:Hid; simpl; [|now constructor].
  rewrite script_dispatch_plan, style_dispatch_plan.
  fold (script_plan options) (style_plan options) (hook_context tab).
  match goal with
  | |- context [bind (rejected_by_filter _ _) ?k] => set (K := k)
  end.
  assert (HK : forall pre w1, Gate options tab w pre w1 ->
             Outcome browser options tab w
               (result (K false w1), final (K false w1), pre ++ events (K false w1))).
  { intros pre w1 Hgate. subst K. cbv beta iota.
    (* the first probe *)
    erewrite run_bind_normal by apply activateContentScript_run.
    cbn [tabId result final events fst snd].
    fold (probe_message tab) (probe browser tab w1).
    destruct (probe browser tab w1) as [r w2] eqn:Hprobe. cbn [fst snd].
    fold (probe_event tab r).
    destruct (probe_succeeded (scriptId options) r) eqn:Hok; cbn [negb].
    { cbn. eapply already_active; eauto. }
    assert (Hcold : Cold browser options tab w (pre ++ [probe_event tab r]) w2)
      by (econstructor; eauto).
    (* the pre-injection hook *)
    destruct (run_hook (beforeInjection (resolve_inject (inject options)))
                BeforeInjection (hook_context tab) w2) as [[[[]|] w3] tb] eqn:Hb.
    2:{ rewrite (run_bind_thrown _ _ _ _ _ Hb). cbn [result final events fst snd].
        by_path before_failed. }
    rewrite (run_bind_normal _ _ _ _ _ _ Hb).
    (* the dispatches *)
    destruct (dispatch_run (scripting_executeScript browser) ExecuteScript
                (target tab) (script_plan options) w3)
      as [(ps1 & w4 & Hd1 & Hl1) | (os & w4 & Hd1 & Hcut)].
    2:{ rewrite (run_bind_thrown _ _ _ _ _ Hd1). cbn [result final events fst snd].
        eapply Outcome_log;
          [eapply dispatch_interrupted; [eauto | eapply interrupted_in_scripts; eauto]
          | reassoc; reflexivity]. }
    rewrite (run_bind_normal _ _ _ _ _ _ Hd1).
    destruct (dispatch_run (scripting_insertCSS browser) InsertCSS
                (target tab) (style_plan options) w4)
      as [(ps2 & w5 & Hd2 & Hl2) | (os & w5 & Hd2 & Hcut)].
    2:{ rewrite (run_bind_thrown _ _ _ _ _ Hd2). cbn [result final events fst snd].
        eapply Outcome_log;
          [eapply dispatch_interrupted; [eauto | eapply interrupted_in_styles; eauto]
          | reassoc; reflexivity]. }
    rewrite (run_bind_normal _ _ _ _ _ _ Hd2).
    assert (Hdone : Dispatched browser options tab w _ w5 (ps1 ++ ps2))
      by (econstructor; eauto).
    pose proof (promise_all_run (ps1 ++ ps2) w5) as Hall.
    destruct (forallb is_normal (ps1 ++ ps2)) eqn:Hps.
    2:{ rewrite (run_bind_thrown _ _ _ _ _ Hall). cbn [result final events fst snd].
        by_path dispatch_failed. }
    rewrite (run_bind_normal _ _ _ _ _ _ Hall).
    (* the post-injection hook *)
    destruct (run_hook (afterInjection (resolve_inject (inject options)))
                AfterInjection (hook_context tab) w5) as [[[[]|] w6] ta] eqn:Ha.
    2:{ rewrite (run_bind_thrown _ _ _ _ _ Ha). cbn [result final events fst snd].
        by_path after_failed. }
    rewrite (run_bind_normal _ _ _ _ _ _ Ha).
    (* the second probe *)
    erewrite run_bind_normal by apply activateContentScript_run.
    cbn [tabId result final events fst snd ret].
    fold (probe_message tab) (probe browser tab w6).
    destruct (probe browser tab w6) as [r2 w7] eqn:Hprobe2. cbn [fst snd].
    fold (probe_event tab r2).
    by_path completed. }
  (* the filter *)
  pose proof (rejected_by_filter_run (filterTab options) tab w) as Hrun.
  destruct (filterTab options) as [g|] eqn:Hf.
  - destruct (g tab w) as [[v|] w1] eqn:Hg; cbn [fst snd] in Hrun.
    + destruct (Js.truthy v) eqn:Hv; cbn [negb] in Hrun.
      * rewrite (run_bind_normal _ _ _ _ _ _ Hrun).
        apply HK. eapply gate_pass; eauto.
      * rewrite (run_bind_normal _ _ _ _ _ _ Hrun). cbn.
        eapply filtered_out; eauto.
    + rewrite (run_bind_thrown _ _ _ _ _ Hrun). eapply filter_failed; eauto.
  - rewrite (run_bind_normal _ _ _ _ _ _ Hrun). apply HK. now constructor.
Qed.
End Stages.

(** *** What the pieces of a run leave in the log *)
Section Logs.
Context {W : Type}.
Variable browser : Browser W.
Variable options : ContentScriptActivationOptions W.
Variable tab : JsObject.

Lemma Gate_log (w : W) pre w1 :
  Gate options tab w pre w1 ->
  pre = [] \/ exists v, pre = [FilterTab tab (Normal v)].
Proof. intros [H | g v w1' Hf Hg Hv]; [now left | right; now exists v]. Qed.

Lemma Gate_unfiltered (w : W) pre w1 :
  filterTab options = None -> Gate options tab w pre w1 -> pre = [] /\ w1 = w.
Proof. intros Hnone [H | g v w1' Hf Hg Hv]; [now split | congruence]. Qed.

Lemma hook_log (hook : option (Hook W)) ev c (w : W) r w' t :
  run_hook hook ev c w = (r, w', t) ->
  (hook = None /\ t = [] /\ r = Normal tt) \/
  (exists h, hook = Some h /\ t = [ev c r] /\ h c w = (r, w')).
Proof.
  rewrite run_hook_run. destruct hook as [h|]; intros Heq; inversion Heq; subst.
  - right. exists h. repeat split. now destruct (h c w).
  - left. now repeat split.
Qed.

Lemma dispatch_log_silent {B} (f : Event -> list B) ev id xs ps :
  (forall x p, f (ev x p) = []) -> flat_map f (dispatch_log ev id xs ps) = [].
Proof.
  intros Hev. unfold dispatch_log.
  induction (combine xs ps) as [|[x p] l IH]; simpl; [reflexivity|].
  now rewrite Hev, IH.
Qed.

Lemma dispatch_log_none (f : Event -> bool) ev id xs ps :
  (forall x p, f (ev x p) = false) -> existsb f (dispatch_log ev id xs ps) = false.
Proof.
  intros Hev. unfold dispatch_log.
  induction (combine xs ps) as [|[x p] l IH]; simpl; [reflexivity|].
  now rewrite Hev, IH.
Qed.

Lemma dispatch_log_each {B} (f : Event -> list B) (g : JsObject -> B) ev id :
  (forall x p, f (ev x p) = [g x]) ->
  forall xs ps, length ps = length xs ->
    flat_map f (dispatch_log ev id xs ps) = map (fun x => g (with_target id x)) xs.
Proof.
  intros Hev. unfold dispatch_log.
  induction xs as [|x xs IH]; intros [|p ps] Hlen; simpl in *; try discriminate.
  - reflexivity.
  - rewrite Hev, IH by congruence. reflexivity.
Qed.

(** A batch that was cut short logs the calls that were made: a prefix of
    the plan. *)
Lemma dispatch_log_prefix {B} (f : Event -> list B) (g : JsObject -> B) ev id :
  (forall x p, f (ev x p) = [g x]) ->
  forall xs os,
    flat_map f (dispatch_log ev id xs os)
    = map (fun x => g (with_target id x)) (firstn (length os) xs).
Proof.
  intros Hev. unfold dispatch_log.
  induction xs as [|x xs IH]; intros [|o os]; simpl; try reflexivity.
  rewrite Hev, IH. reflexivity.
Qed.

Lemma dispatch_log_rejected (f : Event -> bool) ev id :
  (forall x o, f (ev x o) = negb (fulfilled o)) ->
  forall xs os, length os <= length xs ->
    existsb f (dispatch_log ev id xs os) = negb (forallb fulfilled os).
Proof.
  intros Hev. unfold dispatch_log.
  induction xs as [|x xs IH]; intros [|o os] Hlen; simpl in *; try reflexivity.
  - lia.
  - rewrite Hev, IH by lia. now rewrite negb_andb.
Qed.

Lemma dispatch_log_threw (f : Event -> bool) ev id :
  (forall x o, f (ev x o) = threw o) ->
  forall xs os, length os <= length xs ->
    existsb f (dispatch_log ev id xs os) = existsb threw os.
Proof.
  intros Hev. unfold dispatch_log.
  induction xs as [|x xs IH]; intros [|o os] Hlen; simpl in *; try reflexivity.
  - lia.
  - rewrite Hev, IH by lia. reflexivity.
Qed.

Lemma dispatch_log_nil ev id xs : dispatch_log ev id xs [] = [].
Proof. unfold dispatch_log. now rewrite combine_nil. Qed.

Lemma fulfilled_settled (ps : list (Completion unit)) :
  forallb fulfilled (map Normal ps) = forallb is_normal ps.
Proof.
  induction ps as [|[[]|] ps IH]; simpl; [reflexivity | exact IH | reflexivity].
Qed.

Lemma threw_settled (ps : list (Completion unit)) :
  existsb threw (map Normal ps) = false.
Proof. induction ps as [|p ps IH]; simpl; [reflexivity | exact IH]. Qed.

Lemma cut_short_facts os n :
  cut_short os n ->
  length os <= n /\ existsb threw os = true /\ forallb fulfilled os = false.
Proof.
  intros (ps & -> & Hlen). repeat split.
  - rewrite length_app, length_map. simpl. lia.
  - rewrite existsb_app. simpl. now rewrite orb_true_r.
  - rewrite forallb_app. simpl. now rewrite andb_false_r.
Qed.

End Logs.

Section Observations.
Context {W : Type}.
Variable browser : Browser W.
Variable options : ContentScriptActivationOptions W.
Variable tab : JsObject.

Lemma Cold_log (w : W) t w2 :
  Cold browser options tab w t w2 ->
  exists pre r,
    t = pre ++ [probe_event tab r] /\
    (pre = [] \/ exists v, pre = [FilterTab tab (Normal v)]) /\
    probe_succeeded (scriptId options) r = false.
Proof.
  intros [pre w1 r w2' Hgate Hprobe Hfail].
  exists pre, r. repeat split; [now apply Gate_log in Hgate | exact Hfail].
Qed.

Lemma Dispatched_log (w : W) t w5 ps :
  Dispatched browser options tab w t w5 ps ->
  exists t0 w2 tb ps1 ps2,
    Cold browser options tab w t0 w2 /\
    (tb = [] \/ tb = [BeforeInjection (hook_context tab) (Normal tt)]) /\
    length ps1 = length (script_plan options) /\
    length ps2 = length (style_plan options) /\
    ps = ps1 ++ ps2 /\
    t = t0 ++ tb
           ++ dispatch_log ExecuteScript (target tab) (script_plan options)
                (map Normal ps1)
           ++ dispatch_log InsertCSS (target tab) (style_plan options)
                (map Normal ps2).
Proof.
  intros [t0 w2 tb w3 ps1 w4 ps2 w5' Hcold Hb Hd1 Hl1 Hd2 Hl2].
  exists t0, w2, tb, ps1, ps2. repeat split; try assumption.
  apply hook_log in Hb. destruct Hb as [(_ & -> & _) | (h & _ & -> & _)]; auto.
Qed.

Lemma Interrupted_log (w : W) t w5 :
  Interrupted browser options tab w t w5 ->
  exists t0 w2 tb os1 os2,
    Cold browser options tab w t0 w2 /\
    (tb = [] \/ tb = [BeforeInjection (hook_context tab) (Normal tt)]) /\
    length os1 <= length (script_plan options) /\
    length os2 <= length (style_plan options) /\
    existsb threw os1 || existsb threw os2 = true /\
    forallb fulfilled os1 && forallb fulfilled os2 = false /\
    t = t0 ++ tb
           ++ dispatch_log ExecuteScript (target tab) (script_plan options) os1
           ++ dispatch_log InsertCSS (target tab) (style_plan options) os2.
Proof.
  intros [t0 w2 tb w3 os w4 Hcold Hb Hd Hcut
         | t0 w2 tb w3 ps1 w4 os w5' Hcold Hb Hd1 Hl1 Hd2 Hcut];
    apply cut_short_facts in Hcut; destruct Hcut as (Hlen & Hthrew & Hful);
    apply hook_log in Hb;
    assert (Htb : tb = [] \/ tb = [BeforeInjection (hook_context tab) (Normal tt)])
      by (destruct Hb as [(_ & -> & _) | (h & _ & -> & _)]; auto).
  - exists t0, w2, tb, os, []. rewrite Hthrew, Hful, dispatch_log_nil, app_nil_r.
    repeat split; try assumption; simpl; lia.
  - exists t0, w2, tb, (map Normal ps1), os. rewrite Hthrew, Hful, length_map.
    rewrite orb_true_r, andb_false_r.
    repeat split; try assumption; lia.
Qed.

(** The observations, piece by piece. *)
Lemma sent_scripts id xs ps : sent (dispatch_log ExecuteScript id xs ps) = [].
Proof. now apply dispatch_log_silent. Qed.

Lemma sent_styles id xs ps : sent (dispatch_log InsertCSS id xs ps) = [].
Proof. now apply dispatch_log_silent. Qed.

Lemma scripts_of_scripts id xs ps :
  length ps = length xs ->
  script_dispatches (dispatch_log ExecuteScript id xs (map Normal ps))
  = map (with_target id) xs.
Proof.
  intros H. unfold script_dispatches.
  rewrite (dispatch_log_each _ (fun x => x)); [reflexivity | reflexivity |].
  now rewrite length_map.
Qed.

Lemma scripts_of_styles id xs ps :
  script_dispatches (dispatch_log InsertCSS id xs ps) = [].
Proof. now apply dispatch_log_silent. Qed.

Lemma styles_of_styles id xs ps :
  length ps = length xs ->
  style_dispatches (dispatch_log InsertCSS id xs (map Normal ps))
  = map (with_target id) xs.
Proof.
  intros H. unfold style_dispatches.
  rewrite (dispatch_log_each _ (fun x => x)); [reflexivity | reflexivity |].
  now rewrite length_map.
Qed.

Lemma styles_of_scripts id xs ps :
  style_dispatches (dispatch_log ExecuteScript id xs ps) = [].
Proof. now apply dispatch_log_silent. Qed.

Lemma after_in_scripts id xs ps :
  existsb is_after (dispatch_log ExecuteScript id xs ps) = false.
Proof. now apply dispatch_log_none. Qed.

Lemma after_in_styles id xs ps :
  existsb is_after (dispatch_log InsertCSS id xs ps) = false.
Proof. now apply dispatch_log_none. Qed.

Lemma rejected_ExecuteScript x o :
  dispatch_rejected (ExecuteScript x o) = negb (fulfilled o).
Proof. now destruct o as [[|]|]. Qed.

Lemma rejected_InsertCSS x o :
  dispatch_rejected (InsertCSS x o) = negb (fulfilled o).
Proof. now destruct o as [[|]|]. Qed.

Lemma failed_ExecuteScript x o :
  failed_outside_probe (ExecuteScript x o) = negb (fulfilled o).
Proof. now destruct o as [[|]|]. Qed.

Lemma failed_InsertCSS x o :
  failed_outside_probe (InsertCSS x o) = negb (fulfilled o).
Proof. now destruct o as [[|]|]. Qed.

Lemma rejected_in_scripts id xs ps :
  length ps = length xs ->
  existsb dispatch_rejected (dispatch_log ExecuteScript id xs (map Normal ps))
  = negb (forallb is_normal ps).
Proof.
  intros H. rewrite <- fulfilled_settled.
  apply dispatch_log_rejected; [apply rejected_ExecuteScript | rewrite length_map; lia].
Qed.

Lemma rejected_in_styles id xs ps :
  length ps = length xs ->
  existsb dispatch_rejected (dispatch_log InsertCSS id xs (map Normal ps))
  = negb (forallb is_normal ps).
Proof.
  intros H. rewrite <- fulfilled_settled.
  apply dispatch_log_rejected; [apply rejected_InsertCSS | rewrite length_map; lia].
Qed.

Lemma failed_in_scripts id xs ps :
  length ps = length xs ->
  existsb failed_outside_probe (dispatch_log ExecuteScript id xs (map Normal ps))
  = negb (forallb is_normal ps).
Proof.
  intros H. rewrite <- fulfilled_settled.
  apply dispatch_log_rejected; [apply failed_ExecuteScript | rewrite length_map; lia].
Qed.

Lemma failed_in_styles id xs ps :
  length ps = length xs ->
  existsb failed_outside_probe (dispatch_log InsertCSS id xs (map Normal ps))
  = negb (forallb is_normal ps).
Proof.
  intros H. rewrite <- fulfilled_settled.
  apply dispatch_log_rejected; [apply failed_InsertCSS | rewrite length_map; lia].
Qed.

Lemma threw_in_scripts id xs ps :
  length ps = length xs ->
  existsb dispatch_threw (dispatch_log ExecuteScript id xs (map Normal ps)) = false.
Proof.
  intros H. rewrite <- (threw_settled ps).
  apply dispatch_log_threw; [reflexivity | rewrite length_map; lia].
Qed.

Lemma threw_in_styles id xs ps :
  length ps = length xs ->
  existsb dispatch_threw (dispatch_log InsertCSS id xs (map Normal ps)) = false.
Proof.
  intros H. rewrite <- (threw_settled ps).
  apply dispatch_log_threw; [reflexivity | rewrite length_map; lia].
Qed.

(** The same observations on a batch that a throwing call cut short. *)
Lemma scripts_of_cut_scripts id xs os :
  script_dispatches (dispatch_log ExecuteScript id xs os)
  = map (with_target id) (firstn (length os) xs).
Proof.
  unfold script_dispatches. now rewrite (dispatch_log_prefix _ (fun x => x)).
Qed.

Lemma styles_of_cut_styles id xs os :
  style_dispatches (dispatch_log InsertCSS id xs os)
  = map (with_target id) (firstn (length os) xs).
Proof.
  unfold style_dispatches. now rewrite (dispatch_log_prefix _ (fun x => x)).
Qed.

Lemma rejected_in_cut_scripts id xs os :
  length os <= length xs ->
  existsb dispatch_rejected (dispatch_log ExecuteScript id xs os)
  = negb (forallb fulfilled os).
Proof. apply dispatch_log_rejected, rejected_ExecuteScript. Qed.

Lemma rejected_in_cut_styles id xs os :
  length os <= length xs ->
  existsb dispatch_rejected (dispatch_log InsertCSS id xs os)
  = negb (forallb fulfilled os).
Proof. apply dispatch_log_rejected, rejected_InsertCSS. Qed.

Lemma failed_in_cut_scripts id xs os :
  length os <= length xs ->
  existsb failed_outside_probe (dispatch_log ExecuteScript id xs os)
  = negb (forallb fulfilled os).
Proof. apply dispatch_log_rejected, failed_ExecuteScript. Qed.

Lemma failed_in_cut_styles id xs os :
  length os <= length xs ->
  existsb failed_outside_probe (dispatch_log InsertCSS id xs os)
  = negb (forallb fulfilled os).
Proof. apply dispatch_log_rejected, failed_InsertCSS. Qed.

Lemma threw_in_cut_scripts id xs os :
  length os <= length xs ->
  existsb dispatch_threw (dispatch_log ExecuteScript id xs os) = existsb threw os.
Proof. now apply dispatch_log_threw. Qed.

Lemma threw_in_cut_styles id xs os :
  length os <= length xs ->
  existsb dispatch_threw (dispatch_log InsertCSS id xs os) = existsb threw os.
Proof. now apply dispatch_log_threw. Qed.

Create Rewrite HintDb log.
#[local] Hint Rewrite @flat_map_app existsb_app forallb_app
     sent_scripts sent_styles scripts_of_styles styles_of_scripts
     after_in_scripts after_in_styles : log.
#[local] Hint Rewrite scripts_of_scripts styles_of_styles rejected_in_scripts rejected_in_styles
     failed_in_scripts failed_in_styles threw_in_scripts threw_in_styles
     using assumption : log.

Create Rewrite HintDb cut.
#[local] Hint Rewrite @flat_map_app existsb_app forallb_app
     sent_scripts sent_styles scripts_of_styles styles_of_scripts
     after_in_scripts after_in_styles
     scripts_of_cut_scripts styles_of_cut_styles : cut.
#[local] Hint Rewrite rejected_in_cut_scripts rejected_in_cut_styles
     failed_in_cut_scripts failed_in_cut_styles
     threw_in_cut_scripts threw_in_cut_styles
     using assumption : cut.

Ltac observe :=
  unfold sent, script_dispatches, style_dispatches in *;
  repeat rewrite flat_map_app in *;
  repeat rewrite existsb_app in *;
  fold sent script_dispatches style_dispatches in *;
  autorewrite with log in *; cbn in *.

Ltac open_cold H :=
  let pre := fresh "pre" in let r := fresh "r" in
  let Ht := fresh "Ht" in let Hpre := fresh "Hpre" in let Hfail := fresh "Hfail" in
  let v := fresh "v" in
  apply Cold_log in H; destruct H as (pre & r & Ht & Hpre & Hfail);
  destruct Hpre as [Hpre | [v Hpre]]; subst.

Ltac open_dispatched H :=
  let t0 := fresh "t0" in let w2 := fresh "w2" in let tb := fresh "tb" in
  let ps1 := fresh "ps1" in let ps2 := fresh "ps2" in
  let Hcold := fresh "Hcold" in let Htb := fresh "Htb" in
  let Hl1 := fresh "Hl1" in let Hl2 := fresh "Hl2" in
  let Hps := fresh "Hps" in let Ht := fresh "Ht" in
  apply Dispatched_log in H;
  destruct H as (t0 & w2 & tb & ps1 & ps2 & Hcold & Htb & Hl1 & Hl2 & Hps & Ht);
  open_cold Hcold; destruct Htb; subst.

Ltac observe_cut :=
  unfold sent, script_dispatches, style_dispatches in *;
  repeat rewrite flat_map_app in *;
  repeat rewrite existsb_app in *;
  fold sent script_dispatches style_dispatches in *;
  autorewrite with cut in *; cbn in *.

Ltac open_interrupted H :=
  let t0 := fresh "t0" in let w2 := fresh "w2" in let tb := fresh "tb" in
  let Hcold := fresh "Hcold" in let Htb := fresh "Htb" in
  let Ht := fresh "Ht" in
  apply Interrupted_log in H;
  destruct H as (t0 & w2 & tb & os1 & os2 & Hcold & Htb & Hlen1 & Hlen2
                 & Hthrew & Hful & Ht);
  open_cold Hcold; destruct Htb; subst.

Ltac open_gate H :=
  let v := fresh "v" in
  apply Gate_log in H; destruct H as [H | [v H]]; subst.

Ltac open_hook H :=
  let h := fresh "h" in
  apply hook_log in H; destruct H as [(_ & H & ?) | (h & _ & H & _)]; subst.

(** C3. Whatever [scriptId] the controller was set up with, every message
    it puts on the channel during a trigger, the first probe and the
    probe after injection alike, is the request built without a tag: its
    [scriptId] field is [undefined]. *)
Theorem probes_carry_no_scriptId (w : W) :
  Forall (fun m => m = probe_message tab /\ Js.get m "scriptId" = JUndefined)
         (sent (events (activate browser options tab w))).
Proof.
  destruct (activate_outcome browser options tab w)
    as [Hid | g w1 Hid Hf Hg | g v w1 Hid Hf Hg Hv | pre w1 r w2 Hid Hgate Hp Hok
        | t w2 w3 tb Hid Hcold Hb | t w5 Hid Hcut | t w5 ps Hid Hd Hps
        | t w5 ps w6 ta Hid Hd Hps Ha
        | t w5 ps w6 ta r w7 Hid Hd Hps Ha Hp]; unfold events; cbn [snd].
  - constructor.
  - constructor.
  - constructor.
  - open_gate Hgate; cbn; repeat constructor.
  - open_cold Hcold; open_hook Hb; observe; repeat constructor.
  - open_interrupted Hcut; observe_cut; repeat constructor.
  - open_dispatched Hd; observe; repeat constructor.
  - open_dispatched Hd; open_hook Ha; observe; repeat constructor.
  - open_dispatched Hd; open_hook Ha; observe; repeat constructor.
Qed.

Ltac cases_of_activate w :=
  destruct (activate_outcome browser options tab w)
    as [Hid | g w1 Hid Hf Hg | g v w1 Hid Hf Hg Hv | pre w1 r w2 Hid Hgate Hp Hok
        | t w2 w3 tb Hid Hcold Hb | t w5 Hid Hcut | t w5 ps Hid Hd Hps
        | t w5 ps w6 ta Hid Hd Hps Ha
        | t w5 ps w6 ta r w7 Hid Hd Hps Ha Hp];
  unfold events, result, final; cbn [fst snd].

(** C6. Whenever the first probe of a trigger succeeds, that is, the
    agent answers it with an ActivationSuccessMessage of the configured
    tag, the trigger stops there: nothing is dispatched for injection,
    the probe is the only message put on the channel, no injection hook
    runs, and the trigger completes normally. *)
Theorem successful_probe_is_terminal (w : W) (response : Completion JsValue) :
  first_probe (events (activate browser options tab w)) = Some response ->
  probe_succeeded (scriptId options) response = true ->
  script_dispatches (events (activate browser options tab w)) = [] /\
  style_dispatches (events (activate browser options tab w)) = [] /\
  filter is_dispatch (events (activate browser options tab w)) = [] /\
  sent (events (activate browser options tab w)) = [probe_message tab] /\
  existsb is_after (events (activate browser options tab w)) = false /\
  result (activate browser options tab w) = Normal tt.
Proof.
  cases_of_activate w; intros Hfirst Hsucc.
  - discriminate.
  - discriminate.
  - discriminate.
  - open_gate Hgate; cbn; repeat split; reflexivity.
  - open_cold Hcold; cbn in Hfirst; congruence.
  - open_interrupted Hcut; cbn in Hfirst; congruence.
  - open_dispatched Hd; cbn in Hfirst; congruence.
  - open_dispatched Hd; cbn in Hfirst; congruence.
  - open_dispatched Hd; cbn in Hfirst; congruence.
Qed.

(** C7. A trigger whose tab has no usable id ([tab.id] is absent, or
    falsy) is a silent no-op: the run logs nothing (no channel message,
    no injection dispatch, no filter or hook call), leaves the browser as
    it was, and completes normally. *)
Theorem missing_target_is_silent_noop (w : W) :
  Js.truthy (Js.obj_get "id" tab) = false ->
  activate browser options tab w = (Normal tt, w, []).
Proof. intros Hid. unfold activate. now rewrite Hid. Qed.

(** C8. A failed probe round trip never surfaces.  [activateContentScript]
    never throws; it answers "not injected" when the channel rejects (no
    listener, timeout, transport error) and when the response is not a
    success message of the configured tag (malformed, foreign, wrongly
    tagged, or a value on which the discriminator itself throws).  And whenever [activate] rejects, a
    filter, hook or injection dispatch of that run failed: a probe alone
    never makes it reject. *)
Theorem probe_failure_is_swallowed (context : RequestActivationContext)
    (sid : option string) (w : W) :
  result (activateContentScript browser context sid w) <> Thrown /\
  (fst (tabs_sendMessage browser (tabId context)
          (createRequestActivationMessage context None) w) = Thrown ->
     result (activateContentScript browser context sid w) = Normal false) /\
  (forall v,
     fst (tabs_sendMessage browser (tabId context)
            (createRequestActivationMessage context None) w) = Normal v ->
     isActivationSuccessMessage v <> Normal true \/
     Js.eq_opt_string (Js.get v "scriptId") sid = false ->
     result (activateContentScript browser context sid w) = Normal false) /\
  (result (activate browser options tab w) = Thrown ->
     existsb failed_outside_probe (events (activate browser options tab w)) = true).
Proof.
  rewrite activateContentScript_run. unfold result at 1 2 3. cbn [fst].
  split; [discriminate|]. split; [now intros ->|]. split.
  - intros v -> Hv. cbn.
    destruct (isActivationSuccessMessage v) as [[|]|]; destruct Hv; congruence.
  - cases_of_activate w; try discriminate; intros _.
    + reflexivity.
    + open_cold Hcold; open_hook Hb; try discriminate; observe;
        rewrite ?orb_true_r; reflexivity.
    + open_interrupted Hcut; observe_cut; rewrite <- negb_andb, Hful; cbn;
        rewrite ?orb_true_r; reflexivity.
    + open_dispatched Hd; observe; rewrite <- negb_andb, Hps; cbn; rewrite ?orb_true_r; reflexivity.
    + open_dispatched Hd; open_hook Ha; try discriminate; observe;
        rewrite ?orb_true_r; reflexivity.
Qed.

(** C9. When one of the injection dispatches of a trigger is rejected,
    be it that the promise of the call is rejected or that the call itself
    throws, [activate] rejects.  Nothing is retried: the calls logged are the
    planned script and style dispatches, each at most once and in the
    order of the plan; they are the whole plan unless a call threw, which
    ends the dispatching at that call.  The post-injection hook does not
    run, and the first probe stays the only message on the channel. *)
Theorem rejected_dispatch_rejects_activate (w : W) :
  existsb dispatch_rejected (events (activate browser options tab w)) = true ->
  result (activate browser options tab w) = Thrown /\
  (exists k,
     script_dispatches (events (activate browser options tab w))
     = map (with_target (target tab)) (firstn k (script_plan options))) /\
  (exists k,
     style_dispatches (events (activate browser options tab w))
     = map (with_target (target tab)) (firstn k (style_plan options))) /\
  (existsb dispatch_threw (events (activate browser options tab w)) = false ->
     script_dispatches (events (activate browser options tab w))
       = map (with_target (target tab)) (script_plan options) /\
     style_dispatches (events (activate browser options tab w))
       = map (with_target (target tab)) (style_plan options)) /\
  existsb is_after (events (activate browser options tab w)) = false /\
  sent (events (activate browser options tab w)) = [probe_message tab].
Proof.
  cases_of_activate w; intros Hrej.
  - discriminate.
  - discriminate.
  - discriminate.
  - open_gate Hgate; discriminate.
  - open_cold Hcold; open_hook Hb; observe; discriminate.
  - open_interrupted Hcut; observe_cut; rewrite ?app_nil_r;
      (split; [reflexivity|]);
      (split; [now exists (length os1)|]);
      (split; [now exists (length os2)|]);
      (split; [intros Hno; rewrite Hno in Hthrew; discriminate|]);
      split; reflexivity.
  - open_dispatched Hd; observe; rewrite ?app_nil_r;
      (split; [reflexivity|]);
      (split; [exists (length (script_plan options)); now rewrite firstn_all|]);
      (split; [exists (length (style_plan options)); now rewrite firstn_all|]);
      repeat split; reflexivity.
  - open_dispatched Hd; open_hook Ha; observe;
      rewrite ?orb_false_r, <- negb_andb, Hps in Hrej; discriminate.
  - open_dispatched Hd; open_hook Ha; observe;
      rewrite ?orb_false_r, <- negb_andb, Hps in Hrej; discriminate.
Qed.

(** The injection calls of any run are a prefix of the plan, and the whole
    plan when the run reached the injection and no call threw. *)
Lemma dispatches_within_plan (w : W) :
  (exists k,
     script_dispatches (events (activate browser options tab w))
     = map (with_target (target tab)) (firstn k (script_plan options))) /\
  (exists k,
     style_dispatches (events (activate browser options tab w))
     = map (with_target (target tab)) (firstn k (style_plan options))) /\
  (existsb is_dispatch (events (activate browser options tab w)) = true ->
   existsb dispatch_threw (events (activate browser options tab w)) = false ->
   script_dispatches (events (activate browser options tab w))
     = map (with_target (target tab)) (script_plan options) /\
   style_dispatches (events (activate browser options tab w))
     = map (with_target (target tab)) (style_plan options)).
Proof.
  cases_of_activate w.
  - repeat split; try (now exists 0); discriminate.
  - repeat split; try (now exists 0); discriminate.
  - repeat split; try (now exists 0); discriminate.
  - open_gate Hgate; repeat split; try (now exists 0); discriminate.
  - open_cold Hcold; open_hook Hb; observe; repeat split; try (now exists 0);
      discriminate.
  - open_interrupted Hcut;
      (split;
       [ observe_cut; rewrite ?app_nil_r; now exists (length os1)
       | split;
         [ observe_cut; rewrite ?app_nil_r; now exists (length os2)
         | intros _ Hno; observe_cut; rewrite Hno in Hthrew; discriminate ] ]).
  - open_dispatched Hd;
      (split;
       [ observe; rewrite ?app_nil_r; exists (length (script_plan options));
         now rewrite firstn_all
       | split;
         [ observe; rewrite ?app_nil_r; exists (length (style_plan options));
           now rewrite firstn_all
         | intros _ _; observe; rewrite ?app_nil_r; split; reflexivity ] ]).
  - open_dispatched Hd; open_hook Ha;
      (split;
       [ observe; rewrite ?app_nil_r; exists (length (script_plan options));
         now rewrite firstn_all
       | split;
         [ observe; rewrite ?app_nil_r; exists (length (style_plan options));
           now rewrite firstn_all
         | intros _ _; observe; rewrite ?app_nil_r; split; reflexivity ] ]).
  - open_dispatched Hd; open_hook Ha;
      (split;
       [ observe; rewrite ?app_nil_r; exists (length (script_plan options));
         now rewrite firstn_all
       | split;
         [ observe; rewrite ?app_nil_r; exists (length (style_plan options));
           now rewrite firstn_all
         | intros _ _; observe; rewrite ?app_nil_r; split; reflexivity ] ]).
Qed.
End Observations.

(** *** Normalisation of the configured sources *)

Lemma sort_sources_from (l : list Source) : forall strings all,
  fold_left
    (fun acc s =>
       match s with
       | File p => (fst acc ++ [p], snd acc)
       | Options o => (fst acc, snd acc ++ [o])
       end)
    l (strings, all)
  = (strings ++ file_references l, all ++ option_objects l).
Proof.
  induction l as [|[p|o] l IH]; intros strings all; simpl.
  - now rewrite !app_nil_r.
  - rewrite IH. cbn [fst snd]. now rewrite <- app_assoc.
  - rewrite IH. cbn [fst snd]. now rewrite <- app_assoc.
Qed.

Lemma sort_sources_partition (l : list Source) :
  sort_sources l = (file_references l, option_objects l).
Proof. unfold sort_sources. now rewrite sort_sources_from. Qed.

Lemma injections_partition (s : Sources) :
  injections s = option_objects (to_array s) ++ merged_files (to_array s).
Proof.
  unfold injections, merged_files. rewrite sort_sources_partition. cbn [fst snd].
  destruct (file_references (to_array s)) as [|p ps]; simpl.
  - now rewrite app_nil_r.
  - reflexivity.
Qed.

Section ColdTarget.
Context {W : Type}.
Variable browser : Browser W.

Lemma run_hook_fulfilled (h : Hook W) ev c (w : W) :
  fst (h c w) = Normal tt ->
  run_hook (Some h) ev c w = (Normal tt, snd (h c w), [ev c (Normal tt)]).
Proof. intros Hh. rewrite run_hook_run. now rewrite Hh. Qed.

Lemma dispatch_single (api : JsObject -> W -> Completion (Completion unit) * W)
    (ev : JsObject -> Completion (Completion unit) -> Event)
    (id : JsValue) (x : JsObject) (w : W) :
  dispatch api ev id [x] w
  = (match fst (api (with_target id x) w) with
     | Normal p => Normal [p]
     | Thrown => Thrown
     end,
     snd (api (with_target id x) w),
     [ev (with_target id x) (fst (api (with_target id x) w))]).
Proof.
  cbn [dispatch]. unfold bind, invoke, ret.
  destruct (api (with_target id x) w) as [[p|] w1]; reflexivity.
Qed.

Variables hb ha : Hook W.
Variable sid : option string.
Variable click : option bool.

Hypothesis before_fulfils : forall c w', fst (hb c w') = Normal tt.
Hypothesis after_fulfils : forall c w', fst (ha c w') = Normal tt.
Hypothesis scripts_fulfil :
  forall x w', fst (scripting_executeScript browser x w') = Normal (Normal tt).
Hypothesis styles_fulfil :
  forall x w', fst (scripting_insertCSS browser x w') = Normal (Normal tt).

(** C5. The cold-target scenario, with [scripts = ["a.js"]] and
    [styles = ["b.css"]]: on a tab whose probe fails, and with hooks and
    injection capability that fulfil, one trigger does, in this order:
    the failed probe, [beforeInjection], one [executeScript] dispatch
    with [files = ["a.js"]], one [insertCSS] dispatch with
    [files = ["b.css"]], [afterInjection], and a second request whose
    response, whatever it is, is discarded: the trigger completes normally.
    Each of these calls acts on the state the call before it left, and the
    state after the second request is the state the trigger ends in.  In
    general the dispatches of a source list are its option objects, one
    each and in order, followed by a single files-list dispatch that merges
    all its strings; and a run that reaches the injection, and in which no
    injection call throws, dispatches exactly that plan. *)
Theorem cold_target_is_injected_then_probed (tab : JsObject) (w : W) :
  (Js.truthy (Js.obj_get "id" tab) = true ->
   probe_succeeded sid (fst (probe browser tab w)) = false ->
   let script := [("target", JObj [("tabId", target tab)]);
                  ("files", JArr [JStr "a.js"])] in
   let style := [("target", JObj [("tabId", target tab)]);
                 ("files", JArr [JStr "b.css"])] in
   let w1 := snd (probe browser tab w) in
   let w2 := snd (hb (hook_context tab) w1) in
   let w3 := snd (scripting_executeScript browser script w2) in
   let w4 := snd (scripting_insertCSS browser style w3) in
   let w5 := snd (ha (hook_context tab) w4) in
   activate browser (cold_scenario hb ha sid click) tab w =
     (Normal tt,
      snd (probe browser tab w5),
      [SendMessage (target tab) (probe_message tab) (fst (probe browser tab w));
       BeforeInjection (hook_context tab) (Normal tt);
       ExecuteScript script (Normal (Normal tt));
       InsertCSS style (Normal (Normal tt));
       AfterInjection (hook_context tab) (Normal tt);
       SendMessage (target tab) (probe_message tab) (fst (probe browser tab w5))])) /\
  (forall s : Sources,
     injections s = option_objects (to_array s) ++ merged_files (to_array s)) /\
  (forall options : ContentScriptActivationOptions W,
     existsb is_dispatch (events (activate browser options tab w)) = true ->
     existsb dispatch_threw (events (activate browser options tab w)) = false ->
     script_dispatches (events (activate browser options tab w))
       = map (with_target (target tab)) (script_plan options) /\
     style_dispatches (events (activate browser options tab w))
       = map (with_target (target tab)) (style_plan options)).
Proof.
  split; [|split; [exact injections_partition|]].
  - intros Hid Hcold. cbv zeta.
    unfold probe, probe_message in *.
    unfold activate, cold_scenario. fold (target tab) in *. rewrite Hid.
    cbn [negb filterTab inject scriptId resolve_inject beforeInjection afterInjection
         scripts styles sources_truthy].
    change (injections (Multiple [File "a.js"])) with [[("files", JArr [JStr "a.js"])]].
    change (injections (Multiple [File "b.css"])) with [[("files", JArr [JStr "b.css"])]].
    eapply run_with_log.
    {
      (* no filter, and the first probe fails *)
      eapply run_bind_step; [reflexivity | cbv beta iota].
      eapply run_bind_step; [apply activateContentScript_run | cbv beta iota].
      cbn [tabId Messages.tab]. rewrite Hcold. cbn [negb].
      (* beforeInjection and the two dispatches *)
      eapply run_bind_step; [apply run_hook_fulfilled, before_fulfils | cbv beta iota].
      eapply run_bind_step;
        [rewrite dispatch_single, scripts_fulfil; reflexivity | cbv beta iota].
      eapply run_bind_step;
        [rewrite dispatch_single, styles_fulfil; reflexivity | cbv beta iota].
      eapply run_bind_step; [reflexivity | cbv beta iota].
      (* afterInjection and the second probe *)
      eapply run_bind_step; [apply run_hook_fulfilled, after_fulfils | cbv beta iota].
      eapply run_bind_step; [apply activateContentScript_run | cbv beta iota].
      reflexivity.
    }
    reflexivity.
  - intros options. apply dispatches_within_plan.
Qed.
End ColdTarget.

(** C2. With [injectOnClick] left out, [setupContentScriptActivation]
    takes the [else] branch of its final [if]: it adds no listener to
    [browser.action.onClicked] and returns [activate], for the string
    shorthand as for an options object without the field. *)
Theorem unspecified_injectOnClick_registers_nothing {W} (browser : Browser W)
    (file : string) (filter : option (JsObject -> W -> Completion JsValue * W))
    (inj : Inject W) (sid : option string) :
  onClicked (setupContentScriptActivation browser (OptionsString file)) = None /\
  returned (setupContentScriptActivation browser (OptionsString file))
    = Some (activate browser (resolve_options (OptionsString file))) /\
  onClicked (setupContentScriptActivation browser
               (OptionsObject (mkOptions filter inj sid None))) = None /\
  returned (setupContentScriptActivation browser
              (OptionsObject (mkOptions filter inj sid None)))
    = Some (activate browser (mkOptions filter inj sid None)).
Proof. repeat split; reflexivity. Qed.

(** With [injectOnClick: true] the listener is registered and nothing is
    returned; with [false], [activate] is returned. *)
Lemma explicit_injectOnClick {W} (browser : Browser W)
    (filter : option (JsObject -> W -> Completion JsValue * W))
    (inj : Inject W) (sid : option string) :
  setupContentScriptActivation browser (OptionsObject (mkOptions filter inj sid (Some true)))
    = mkSetup W (Some (activate browser (mkOptions filter inj sid (Some true)))) None /\
  setupContentScriptActivation browser (OptionsObject (mkOptions filter inj sid (Some false)))
    = mkSetup W None (Some (activate browser (mkOptions filter inj sid (Some false)))).
Proof. split; reflexivity. Qed.

End WorkerFacts.

(** * The protocol end to end, on one tab *)

Module Scenarios.
Import Messages ContentScript Worker Spec Examples Fixtures.

(** The request the controller sends is refused by every tagged agent. *)
Lemma tagged_agent_refuses_probe (tab : JsObject) (s : string) :
  accepted (Some s) (probe_message tab) = false.
Proof. reflexivity. Qed.

(** C1. The scenario "live agent, tag x on both sides" as the code runs
    it: the probe is sent without the tag, the agent ignores it and the
    channel rejects; the content script is dispatched for injection again,
    which registers a second listener; the second probe is ignored as
    well, and the agent's callback is not invoked at all. *)
Theorem tagged_pair_is_reinjected_and_never_activated :
  events tagged_click =
    [SendMessage (JNum 1) (probe_message clicked_tab) Thrown;
     ExecuteScript [("target", JObj [("tabId", JNum 1)]);
                    ("files", JArr [JStr "content-script.js"])] (Normal (Normal tt));
     SendMessage (JNum 1) (probe_message clicked_tab) Thrown] /\
  result tagged_click = Normal tt /\
  activations (Tab.page_log (final tagged_click)) = [] /\
  Tab.page (final tagged_click) = 0 /\
  length (Tab.onMessage (final tagged_click)) = 2.
Proof. vm_compute. repeat split; reflexivity. Qed.

(** Without a tag on either side the same click behaves as specified. *)
Lemma untagged_pair_is_activated_once :
  events untagged_click =
    [SendMessage (JNum 1) (probe_message clicked_tab)
                 (Normal (createActivationSuccessMessage None))] /\
  activations (Tab.page_log (final untagged_click))
    = [(context_value (mkContext clicked_tab (JNum 1)), None)] /\
  Tab.page (final untagged_click) = 1.
Proof. vm_compute. repeat split; reflexivity. Qed.

(** The reply is not unconditional: a well-formed request with the agent's
    tag stays unanswered when the callback throws. *)
Lemma reply_is_not_unconditional :
  isRequestActivationMessage untagged_request = Normal true /\
  Js.eq_opt_string (Js.get untagged_request "scriptId") None = true /\
  activations (events (listener (Some Tab.failing_callback) None untagged_request 0))
    = [(Js.get untagged_request "context", None)] /\
  responses (events (listener (Some Tab.failing_callback) None untagged_request 0)) = [] /\
  ~ (forall (onActivation : option (Callback nat)) (scriptId : option string)
            (message : JsValue) (s : nat),
       isRequestActivationMessage message = Normal true ->
       Js.eq_opt_string (Js.get message "scriptId") scriptId = true ->
       responses (events (listener onActivation scriptId message s))
       = [createActivationSuccessMessage scriptId]).
Proof.
  repeat split; try reflexivity.
  intros H.
  specialize (H (Some Tab.failing_callback) None untagged_request 0 eq_refl eq_refl).
  discriminate H.
Qed.

Lemma listener_answers_matching_requests_only_witness :
  (responses (events (listener (Some Tab.count_activation) (Some "x")
                        untagged_request 0)) = [] /\
   activations (events (listener (Some Tab.count_activation) (Some "x")
                          untagged_request 0)) = [] /\
   events (listener (Some Tab.count_activation) (Some "x") untagged_request 0) = [] /\
   final (listener (Some Tab.count_activation) (Some "x") untagged_request 0) = 0) /\
  (activations (events (listener (Some Tab.count_activation) (Some "x")
                          tagged_request 0))
     = [(Js.get tagged_request "context", Some "x")] /\
   final (listener (Some Tab.count_activation) (Some "x") tagged_request 0) = 1 /\
   events (listener (Some Tab.count_activation) (Some "x") tagged_request 0)
     = [Activated (Js.get tagged_request "context") (Some "x") (Normal tt);
        Responded (createActivationSuccessMessage (Some "x"))]) /\
  (result (listener (Some Tab.failing_callback) None untagged_request 0) = Thrown /\
   responses (events (listener (Some Tab.failing_callback) None untagged_request 0)) = []).
Proof.
  split; [|split].
  - apply (ContentScriptFacts.listener_answers_matching_requests_only
             (Some Tab.count_activation) (Some "x") untagged_request 0).
    right. reflexivity.
  - destruct (proj1 (proj2 (ContentScriptFacts.listener_answers_matching_requests_only
                              (Some Tab.count_activation) (Some "x") tagged_request 0))
                eq_refl eq_refl) as (Hact & Hfinal & Hreply & _).
    split; [exact Hact|]. split; [exact Hfinal|]. apply Hreply. reflexivity.
  - destruct (proj1 (proj2 (ContentScriptFacts.listener_answers_matching_requests_only
                              (Some Tab.failing_callback) None untagged_request 0))
                eq_refl eq_refl) as (_ & _ & _ & Hthrow).
    destruct (Hthrow Tab.failing_callback eq_refl eq_refl) as (Hres & _ & Hnone).
    split; assumption.
Defined.

Lemma cold_target_is_injected_then_probed_witness :
  activate silent_browser (cold_scenario idle_hook idle_hook None None) clicked_tab 0
  = (Normal tt, 2,
     [SendMessage (JNum 1) (probe_message clicked_tab) Thrown;
      BeforeInjection (hook_context clicked_tab) (Normal tt);
      ExecuteScript [("target", JObj [("tabId", JNum 1)]);
                     ("files", JArr [JStr "a.js"])] (Normal (Normal tt));
      InsertCSS [("target", JObj [("tabId", JNum 1)]);
                 ("files", JArr [JStr "b.css"])] (Normal (Normal tt));
      AfterInjection (hook_context clicked_tab) (Normal tt);
      SendMessage (JNum 1) (probe_message clicked_tab) Thrown]).
Proof.
  apply (proj1 (WorkerFacts.cold_target_is_injected_then_probed
                  silent_browser idle_hook idle_hook None None
                  (fun _ _ => eq_refl) (fun _ _ => eq_refl)
                  (fun _ _ => eq_refl) (fun _ _ => eq_refl) clicked_tab 0)).
  - reflexivity.
  - reflexivity.
Defined.

Lemma successful_probe_is_terminal_witness :
  script_dispatches (events untagged_click) = [] /\
  style_dispatches (events untagged_click) = [] /\
  filter is_dispatch (events untagged_click) = [] /\
  sent (events untagged_click) = [probe_message clicked_tab] /\
  existsb is_after (events untagged_click) = false /\
  result untagged_click = Normal tt.
Proof.
  apply (WorkerFacts.successful_probe_is_terminal Tab.browser
           (controller "content-script.js" None (Some true)) clicked_tab (live_page None)
           (Normal (createActivationSuccessMessage None))).
  - vm_compute. reflexivity.
  - reflexivity.
Defined.

Lemma missing_target_is_silent_noop_witness :
  activate Tab.browser (controller "content-script.js" None (Some true))
           closed_tab (fresh_page None)
  = (Normal tt, fresh_page None, []).
Proof.
  apply (WorkerFacts.missing_target_is_silent_noop Tab.browser
           (controller "content-script.js" None (Some true)) closed_tab (fresh_page None)).
  reflexivity.
Defined.

Lemma probe_failure_is_swallowed_witness :
  result (activateContentScript Tab.browser (mkContext clicked_tab (JNum 1)) None
            (fresh_page None)) = Normal false.
Proof.
  apply (WorkerFacts.probe_failure_is_swallowed Tab.browser
           (controller "content-script.js" None (Some true)) clicked_tab
           (mkContext clicked_tab (JNum 1)) None (fresh_page None)).
  reflexivity.
Defined.

(** A call of [executeScript] that throws ends the trigger on the spot:
    the style is not dispatched and nothing counts as injected. *)
Lemma throwing_executeScript_skips_styles :
  activate strict_browser (cold_scenario idle_hook idle_hook None None) clicked_tab 0
  = (Thrown, 0,
     [SendMessage (JNum 1) (probe_message clicked_tab) Thrown;
      BeforeInjection (hook_context clicked_tab) (Normal tt);
      ExecuteScript [("target", JObj [("tabId", JNum 1)]);
                     ("files", JArr [JStr "a.js"])] Thrown]).
Proof. reflexivity. Qed.

Lemma rejected_dispatch_rejects_activate_witness :
  result (activate Tab.browser (controller "missing.js" None (Some true))
            clicked_tab (fresh_page None)) = Thrown /\
  (result (activate strict_browser (cold_scenario idle_hook idle_hook None None)
             clicked_tab 0) = Thrown /\
   exists k,
     style_dispatches
       (events (activate strict_browser (cold_scenario idle_hook idle_hook None None)
                  clicked_tab 0))
     = map (with_target (target clicked_tab))
           (firstn k (style_plan (cold_scenario (W:=nat) idle_hook idle_hook None None)))).
Proof.
  split.
  - apply (WorkerFacts.rejected_dispatch_rejects_activate Tab.browser
             (controller "missing.js" None (Some true)) clicked_tab (fresh_page None)).
    vm_compute. reflexivity.
  - destruct (WorkerFacts.rejected_dispatch_rejects_activate strict_browser
                (cold_scenario idle_hook idle_hook None None) clicked_tab 0)
      as (Hres & _ & Hstyles & _).
    + reflexivity.
    + split; assumption.
Defined.

End Scenarios.

(** * Further properties of the protocol *)

Module ProtocolFacts.
Import Messages ContentScript Worker Spec Observers WorkerFacts.

#[local] Arguments target : simpl never.
#[local] Arguments probe_message : simpl never.
#[local] Arguments script_plan : simpl never.
#[local] Arguments style_plan : simpl never.
#[local] Arguments dispatch_log : simpl never.
#[local] Arguments hook_context : simpl never.

(** ** The discriminators on arbitrary channel traffic *)

(** No message is both a request and a success; an object without the
    namespaced key is neither; on a value that is not an object both
    discriminators throw. *)
Theorem discriminators_partition_traffic (m : JsValue) :
  (isRequestActivationMessage m = Normal true ->
   isActivationSuccessMessage m = Normal false) /\
  (isActivationSuccessMessage m = Normal true ->
   isRequestActivationMessage m = Normal false) /\
  (forall o, m = JObj o -> Js.obj_has KEY o = false ->
     isRequestActivationMessage m = Normal false /\
     isActivationSuccessMessage m = Normal false) /\
  ((forall o, m <> JObj o) -> (forall l, m <> JArr l) ->
     isRequestActivationMessage m = Thrown /\
     isActivationSuccessMessage m = Thrown).
Proof.
  unfold isRequestActivationMessage, isActivationSuccessMessage.
  split; [|split; [|split]].
  - destruct m as [| | | | |l|o]; simpl; try discriminate.
    destruct (Js.obj_has KEY o); [|discriminate].
    destruct (Js.obj_get KEY o) as [| | | |s| |]; simpl; try discriminate.
    intros [= H]. apply String.eqb_eq in H. now subst s.
  - destruct m as [| | | | |l|o]; simpl; try discriminate.
    destruct (Js.obj_has KEY o); [|discriminate].
    destruct (Js.obj_get KEY o) as [| | | |s| |]; simpl; try discriminate.
    intros [= H]. apply String.eqb_eq in H. now subst s.
  - intros o -> Hkey. simpl. rewrite Hkey. now split.
  - intros Hobj Harr.
    destruct m as [| | | | |l|o]; try (split; reflexivity).
    + now destruct (Harr l).
    + now destruct (Hobj o).
Qed.

Lemma of_opt_string_matches (a b : option string) :
  Js.eq_opt_string (Js.of_opt_string a) b = true <-> a = b.
Proof.
  destruct a as [a|], b as [b|]; simpl; split; try discriminate; try reflexivity.
  - intros H. apply String.eqb_eq in H. now subst.
  - intros [= ->]. apply String.eqb_refl.
Qed.

(** ** Round trips between the two sides *)

(** An agent set up with tag [s] that receives a request built with tag
    [s'] stays silent when the tags differ.  When they agree the callback,
    if there is one, is invoked exactly once, with the very context the
    request was built from and the tag: that call is the only entry of its
    kind in the log, with the outcome the callback gave, and the page is
    left as that one call left it. *)
Theorem built_request_reaches_agent_of_same_tag {S}
    (onActivation : option (Callback S)) (s s' : option string)
    (c : RequestActivationContext) (st : S) :
  (s' <> s ->
   events (listener onActivation s (createRequestActivationMessage c s') st) = [] /\
   final (listener onActivation s (createRequestActivationMessage c s') st) = st) /\
  activations (events (listener onActivation s (createRequestActivationMessage c s) st))
    = match onActivation with
      | Some _ => [(context_value c, s)]
      | None => []
      end /\
  final (listener onActivation s (createRequestActivationMessage c s) st)
    = match onActivation with
      | Some f => snd (f (context_value c) s st)
      | None => st
      end /\
  events (listener onActivation s (createRequestActivationMessage c s) st)
    = match onActivation with
      | Some f =>
          Activated (context_value c) s (fst (f (context_value c) s st))
          :: match fst (f (context_value c) s st) with
             | Normal _ => [Responded (createActivationSuccessMessage s)]
             | Thrown => []
             end
      | None => [Responded (createActivationSuccessMessage s)]
      end.
Proof.
  split.
  - intros Hneq. apply ContentScriptFacts.listener_ignoring.
    unfold accepted. simpl.
    destruct (Js.eq_opt_string (Js.of_opt_string s') s) eqn:E; [|reflexivity].
    apply of_opt_string_matches in E. contradiction.
  - rewrite ContentScriptFacts.listener_accepting
      by (unfold accepted; simpl; now apply of_opt_string_matches).
    unfold bind. rewrite ContentScriptFacts.call_onActivation_run.
    destruct onActivation as [f|]; simpl; [|repeat split; reflexivity].
    destruct (f (context_value c) s st) as [[[]|] s1]; repeat split; reflexivity.
Qed.

(** A callback that throws on a matching request has been invoked once, but
    the listener throws with it and the reply is never sent: to the
    controller such a tab looks as if nothing were injected. *)
Theorem throwing_callback_withholds_reply {S} (f : Callback S) (sid : option string)
    (message : JsValue) (s : S) :
  isRequestActivationMessage message = Normal true ->
  Js.eq_opt_string (Js.get message "scriptId") sid = true ->
  fst (f (Js.get message "context") sid s) = Thrown ->
  result (listener (Some f) sid message s) = Thrown /\
  responses (events (listener (Some f) sid message s)) = [] /\
  activations (events (listener (Some f) sid message s))
    = [(Js.get message "context", sid)].
Proof.
  intros Hreq Htag Hthrow.
  rewrite ContentScriptFacts.listener_accepting
    by (unfold accepted; now rewrite Hreq).
  unfold bind. rewrite ContentScriptFacts.call_onActivation_run.
  destruct (f (Js.get message "context") sid s) as [[u|] s1]; [discriminate|].
  repeat split; reflexivity.
Qed.

Section Controller.
Context {W : Type}.
Variable browser : Browser W.

(** The controller takes a tab for injected exactly when the channel
    fulfils with a success message whose tag is strictly equal to its own;
    in particular a reply built by [createActivationSuccessMessage] with tag
    [s'] is accepted by a controller with tag [s] iff [s' = s]. *)
Theorem probe_accepts_reply_of_same_tag (context : RequestActivationContext)
    (s s' : option string) (w : W) :
  (result (activateContentScript browser context s w) = Normal true <->
   exists v,
     fst (tabs_sendMessage browser (tabId context)
            (createRequestActivationMessage context None) w) = Normal v /\
     isActivationSuccessMessage v = Normal true /\
     Js.eq_opt_string (Js.get v "scriptId") s = true) /\
  (fst (tabs_sendMessage browser (tabId context)
          (createRequestActivationMessage context None) w)
     = Normal (createActivationSuccessMessage s') ->
   (result (activateContentScript browser context s w) = Normal true <-> s' = s)).
Proof.
  rewrite activateContentScript_run. unfold result. cbn [fst].
  split.
  - destruct (fst (tabs_sendMessage browser _ _ w)) as [v|]; simpl.
    + split.
      * intros [= H]. exists v. split; [reflexivity|].
        destruct (isActivationSuccessMessage v) as [[|]|]; try discriminate. now split.
      * intros (v' & [= <-] & Hs & Ht). now rewrite Hs, Ht.
    + split; [discriminate|]. intros (v' & Hv & _). discriminate.
  - intros ->. simpl. split.
    + intros [= H]. now apply of_opt_string_matches.
    + intros H. f_equal. now apply of_opt_string_matches.
Qed.
End Controller.

(** ** One trigger, path by path *)

Section Paths.
Context {W : Type}.
Variable browser : Browser W.
Variable options : ContentScriptActivationOptions W.
Variable tab : JsObject.

Lemma filter_calls_scripts id xs ps :
  filter_calls (dispatch_log ExecuteScript id xs ps) = [].
Proof. now apply dispatch_log_silent. Qed.

Lemma filter_calls_styles id xs ps :
  filter_calls (dispatch_log InsertCSS id xs ps) = [].
Proof. now apply dispatch_log_silent. Qed.

Lemma before_calls_scripts id xs ps :
  before_calls (dispatch_log ExecuteScript id xs ps) = [].
Proof. now apply dispatch_log_silent. Qed.

Lemma before_calls_styles id xs ps :
  before_calls (dispatch_log InsertCSS id xs ps) = [].
Proof. now apply dispatch_log_silent. Qed.

Lemma after_calls_scripts id xs ps :
  after_calls (dispatch_log ExecuteScript id xs ps) = [].
Proof. now apply dispatch_log_silent. Qed.

Lemma after_calls_styles id xs ps :
  after_calls (dispatch_log InsertCSS id xs ps) = [].
Proof. now apply dispatch_log_silent. Qed.

Create Rewrite HintDb paths.
#[local] Hint Rewrite @flat_map_app existsb_app forallb_app
     sent_scripts sent_styles scripts_of_styles styles_of_scripts
     after_in_scripts after_in_styles
     filter_calls_scripts filter_calls_styles before_calls_scripts before_calls_styles
     after_calls_scripts after_calls_styles : paths.
#[local] Hint Rewrite scripts_of_scripts styles_of_styles rejected_in_scripts
     rejected_in_styles failed_in_scripts failed_in_styles using assumption : paths.

Create Rewrite HintDb cutpaths.
#[local] Hint Rewrite @flat_map_app existsb_app forallb_app
     sent_scripts sent_styles scripts_of_styles styles_of_scripts
     after_in_scripts after_in_styles
     filter_calls_scripts filter_calls_styles before_calls_scripts before_calls_styles
     after_calls_scripts after_calls_styles
     scripts_of_cut_scripts styles_of_cut_styles : cutpaths.
#[local] Hint Rewrite rejected_in_cut_scripts rejected_in_cut_styles
     failed_in_cut_scripts failed_in_cut_styles using assumption : cutpaths.

Ltac survey :=
  unfold sent, script_dispatches, style_dispatches,
    filter_calls, before_calls, after_calls in *;
  repeat rewrite flat_map_app in *;
  repeat rewrite existsb_app in *;
  fold sent script_dispatches style_dispatches
    filter_calls before_calls after_calls in *;
  autorewrite with paths in *; cbn in *.

Ltac enter_cold H :=
  let pre := fresh "pre" in let r := fresh "r" in
  let Ht := fresh "Ht" in let Hpre := fresh "Hpre" in let Hfail := fresh "Hfail" in
  let v := fresh "v" in
  apply Cold_log in H; destruct H as (pre & r & Ht & Hpre & Hfail);
  destruct Hpre as [Hpre | [v Hpre]]; subst.

Ltac enter_dispatched H :=
  let t0 := fresh "t0" in let w2 := fresh "w2" in let tb := fresh "tb" in
  let ps1 := fresh "ps1" in let ps2 := fresh "ps2" in
  let Hcold := fresh "Hcold" in let Htb := fresh "Htb" in
  let Hl1 := fresh "Hl1" in let Hl2 := fresh "Hl2" in
  let Hps := fresh "Hps" in let Ht := fresh "Ht" in
  apply Dispatched_log in H;
  destruct H as (t0 & w2 & tb & ps1 & ps2 & Hcold & Htb & Hl1 & Hl2 & Hps & Ht);
  enter_cold Hcold; destruct Htb; subst.

Ltac survey_cut :=
  unfold sent, script_dispatches, style_dispatches,
    filter_calls, before_calls, after_calls in *;
  repeat rewrite flat_map_app in *;
  repeat rewrite existsb_app in *;
  fold sent script_dispatches style_dispatches
    filter_calls before_calls after_calls in *;
  autorewrite with cutpaths in *; cbn in *.

Ltac enter_interrupted H :=
  let t0 := fresh "t0" in let w2 := fresh "w2" in let tb := fresh "tb" in
  let Hcold := fresh "Hcold" in let Htb := fresh "Htb" in
  let Ht := fresh "Ht" in
  apply Interrupted_log in H;
  destruct H as (t0 & w2 & tb & os1 & os2 & Hcold & Htb & Hlen1 & Hlen2
                 & Hthrew & Hful & Ht);
  enter_cold Hcold; destruct Htb; subst.

Ltac enter_gate H :=
  let v := fresh "v" in
  apply Gate_log in H; destruct H as [H | [v H]]; subst.

Ltac enter_hook H :=
  let h := fresh "h" in
  apply hook_log in H; destruct H as [(_ & H & ?) | (h & _ & H & _)]; subst.

Ltac paths_of w :=
  destruct (activate_outcome browser options tab w)
    as [Hid | g w1 Hid Hf Hg | g v w1 Hid Hf Hg Hv | pre w1 r w2 Hid Hgate Hp Hok
        | t w2 w3 tb Hid Hcold Hb | t w5 Hid Hcut | t w5 ps Hid Hd Hps
        | t w5 ps w6 ta Hid Hd Hps Ha
        | t w5 ps w6 ta r w7 Hid Hd Hps Ha Hp];
  unfold events, result, final; cbn [fst snd].

(** One trigger puts at most two messages on the channel and calls the
    filter and each hook at most once. *)
Theorem trigger_effort_is_bounded (w : W) :
  length (sent (events (activate browser options tab w))) <= 2 /\
  length (filter_calls (events (activate browser options tab w))) <= 1 /\
  length (before_calls (events (activate browser options tab w))) <= 1 /\
  length (after_calls (events (activate browser options tab w))) <= 1.
Proof.
  paths_of w.
  - cbn. lia.
  - cbn. lia.
  - cbn. lia.
  - enter_gate Hgate; cbn; lia.
  - enter_cold Hcold; enter_hook Hb; survey; lia.
  - enter_interrupted Hcut; survey_cut; lia.
  - enter_dispatched Hd; survey; lia.
  - enter_dispatched Hd; enter_hook Ha; survey; lia.
  - enter_dispatched Hd; enter_hook Ha; survey; lia.
Qed.

Lemma script_calls_addressed os :
  Forall (addresses options tab)
         (dispatch_log ExecuteScript (target tab) (script_plan options) os).
Proof.
  unfold dispatch_log. apply Forall_forall. intros e Hin.
  apply in_map_iff in Hin. destruct Hin as ([x o] & <- & Hin).
  apply in_combine_l in Hin. exists x. now split.
Qed.

Lemma style_calls_addressed os :
  Forall (addresses options tab)
         (dispatch_log InsertCSS (target tab) (style_plan options) os).
Proof.
  unfold dispatch_log. apply Forall_forall. intros e Hin.
  apply in_map_iff in Hin. destruct Hin as ([x o] & <- & Hin).
  apply in_combine_l in Hin. exists x. now split.
Qed.

Ltac addressed :=
  rewrite ?Forall_app; repeat split;
  try apply script_calls_addressed; try apply style_calls_addressed;
  repeat constructor.

(** Every call of a trigger is made for the tab it was given: every message
    goes to [tab.id], the filter is asked about [tab], both hooks receive
    [{ tab, tabId: tab.id }], and every injection call is handed
    [{ target: { tabId: tab.id }, ...x }] for an options object [x] of the
    configured plan.  (What that object's [target] then is, the tab's or
    one that [x] names itself, is the subject of
    [dispatch_options_are_targeted].) *)
Theorem trigger_addresses_clicked_tab (w : W) :
  Forall (addresses options tab) (events (activate browser options tab w)).
Proof.
  paths_of w.
  - constructor.
  - addressed.
  - addressed.
  - enter_gate Hgate; addressed.
  - enter_cold Hcold; enter_hook Hb; addressed.
  - enter_interrupted Hcut; addressed.
  - enter_dispatched Hd; addressed.
  - enter_dispatched Hd; enter_hook Ha; addressed.
  - enter_dispatched Hd; enter_hook Ha; addressed.
Qed.


(** When [beforeInjection] fails, the trigger rejects before anything is
    injected: no dispatch is made, [afterInjection] is not called and the
    first probe stays the only message. *)
Theorem failed_beforeInjection_prevents_injection (w : W) :
  before_calls (events (activate browser options tab w)) = [Thrown] ->
  result (activate browser options tab w) = Thrown /\
  script_dispatches (events (activate browser options tab w)) = [] /\
  style_dispatches (events (activate browser options tab w)) = [] /\
  after_calls (events (activate browser options tab w)) = [] /\
  sent (events (activate browser options tab w)) = [probe_message tab].
Proof.
  paths_of w; intros Hbefore.
  - discriminate.
  - discriminate.
  - discriminate.
  - enter_gate Hgate; discriminate.
  - enter_cold Hcold; enter_hook Hb; survey; try discriminate; repeat split; reflexivity.
  - enter_interrupted Hcut; survey_cut; discriminate.
  - enter_dispatched Hd; survey; discriminate.
  - enter_dispatched Hd; enter_hook Ha; survey; discriminate.
  - enter_dispatched Hd; enter_hook Ha; survey; discriminate.
Qed.


(** A tab the filter turns down, with any falsy verdict, is left alone: the
    filter call is all that happens and the trigger completes normally.  A
    filter that throws makes the trigger reject, again before any message. *)
Theorem filter_verdict_gates_the_trigger
    (g : JsObject -> W -> Completion JsValue * W) (w : W) :
  Js.truthy (Js.obj_get "id" tab) = true ->
  filterTab options = Some g ->
  (forall v w1, g tab w = (Normal v, w1) -> Js.truthy v = false ->
     activate browser options tab w = (Normal tt, w1, [FilterTab tab (Normal v)])) /\
  (forall w1, g tab w = (Thrown, w1) ->
     activate browser options tab w = (Thrown, w1, [FilterTab tab Thrown])).
Proof.
  intros Hid Hf.
  pose proof (rejected_by_filter_run (filterTab options) tab w) as Hrun.
  rewrite Hf in Hrun.
  split.
  - intros v w1 Hg Hv. rewrite Hg in Hrun. cbn [fst snd] in Hrun. rewrite Hv in Hrun.
    unfold activate. rewrite Hid, Hf. cbn [negb].
    now rewrite (run_bind_normal _ _ _ _ _ _ Hrun).
  - intros w1 Hg. rewrite Hg in Hrun. cbn [fst snd] in Hrun.
    unfold activate. rewrite Hid, Hf. cbn [negb].
    now rewrite (run_bind_thrown _ _ _ _ _ Hrun).
Qed.
End Paths.

(** ** Shorthands and the normalisation of sources *)

Section Shorthands.
Context {W : Type}.
Variable browser : Browser W.

(** The shorthands of the README agree: for a non-empty file name [s], the
    bare string, the one-element list, [{ inject: s }] and [{ inject: [s] }]
    all give the same [activate]. *)
Theorem shorthands_agree (s : string) (tab : JsObject) (w : W) :
  s <> "" ->
  activate browser (resolve_options (OptionsString s)) tab w
    = activate browser (resolve_options (OptionsStrings [s])) tab w /\
  activate browser (resolve_options (OptionsString s)) tab w
    = activate browser (mkOptions None (InjectString s) None None) tab w /\
  activate browser (resolve_options (OptionsString s)) tab w
    = activate browser (mkOptions None (InjectStrings [s]) None None) tab w.
Proof.
  intros Hs. apply String.eqb_neq in Hs.
  unfold activate. cbn. rewrite Hs. cbn. repeat split; reflexivity.
Qed.

Lemma dispatch_events_show (t : list Event) :
  existsb is_dispatch t = true ->
  script_dispatches t <> [] \/ style_dispatches t <> [].
Proof.
  induction t as [|e t IH]; simpl; [discriminate|].
  destruct e; simpl; try exact IH.
  - intros _. left. discriminate.
  - intros _. right. discriminate.
Qed.

(** An empty file name is falsy and an empty list has nothing to merge:
    with [inject: ""] or [inject: []] no trigger ever reaches the injection
    capability. *)
Theorem empty_inject_never_dispatches
    (filter : option (JsObject -> W -> Completion JsValue * W))
    (sid : option string) (click : option bool) (tab : JsObject) (w : W) :
  existsb is_dispatch
    (events (activate browser (mkOptions filter (InjectString "") sid click) tab w)) = false /\
  existsb is_dispatch
    (events (activate browser (mkOptions filter (InjectStrings []) sid click) tab w)) = false.
Proof.
  split.
  - destruct (existsb is_dispatch _) eqn:Hany; [|reflexivity].
    destruct (dispatches_within_plan browser
                (mkOptions filter (InjectString "") sid click) tab w)
      as ([k1 Hs] & [k2 Hc] & _).
    destruct (dispatch_events_show _ Hany) as [H | H];
      [rewrite Hs in H | rewrite Hc in H]; now destruct k1, k2.
  - destruct (existsb is_dispatch _) eqn:Hany; [|reflexivity].
    destruct (dispatches_within_plan browser
                (mkOptions filter (InjectStrings []) sid click) tab w)
      as ([k1 Hs] & [k2 Hc] & _).
    destruct (dispatch_events_show _ Hany) as [H | H];
      [rewrite Hs in H | rewrite Hc in H]; now destruct k1, k2.
Qed.



End Shorthands.

(** ** The options object handed to the injection capability *)

Lemma obj_has_In (k : string) (o : JsObject) :
  Js.obj_has k o = true <-> In k (keys o).
Proof.
  induction o as [|[k' v] o IH]; simpl.
  - split; [discriminate | contradiction].
  - rewrite orb_true_iff, IH, String.eqb_eq. split; intros [H | H]; auto.
Qed.

Lemma obj_get_set (k k' : string) (v : JsValue) (o : JsObject) :
  Js.obj_get k (Js.obj_set k' v o) = if String.eqb k k' then v else Js.obj_get k o.
Proof.
  induction o as [|[k0 v0] o IH]; simpl.
  - reflexivity.
  - destruct (String.eqb_spec k' k0) as [-> | Hne]; simpl.
    + destruct (String.eqb k k0); reflexivity.
    + rewrite IH. destruct (String.eqb_spec k k0) as [-> | Hne'].
      * destruct (String.eqb_spec k0 k'); [congruence | reflexivity].
      * reflexivity.
Qed.

Lemma obj_get_spread (k : string) (extra : JsObject) : forall base : JsObject,
  NoDup (keys extra) ->
  Js.obj_get k (Js.spread base extra)
  = if Js.obj_has k extra then Js.obj_get k extra else Js.obj_get k base.
Proof.
  unfold Js.spread.
  induction extra as [|[k' v] extra IH]; intros base Hnd; simpl.
  - reflexivity.
  - inversion Hnd as [|? ? Hnotin Hnd']; subst.
    rewrite (IH _ Hnd'), obj_get_set.
    destruct (String.eqb_spec k k') as [-> | Hne]; simpl.
    + destruct (Js.obj_has k' extra) eqn:Hhas; [|reflexivity].
      apply obj_has_In in Hhas. contradiction.
    + reflexivity.
Qed.

Lemma obj_set_fresh (k : string) (v : JsValue) (o : JsObject) :
  Js.obj_has k o = false -> Js.obj_set k v o = o ++ [(k, v)].
Proof.
  induction o as [|[k' v'] o IH]; simpl; [reflexivity|].
  intros H. apply orb_false_iff in H. destruct H as [Hk Ho].
  rewrite Hk, IH by assumption. reflexivity.
Qed.

Lemma obj_has_app (k : string) (a b : JsObject) :
  Js.obj_has k (a ++ b) = Js.obj_has k a || Js.obj_has k b.
Proof.
  induction a as [|[k' v] a IH]; simpl; [reflexivity|].
  now rewrite IH, orb_assoc.
Qed.

Lemma spread_fresh (extra : JsObject) : forall base : JsObject,
  NoDup (keys extra) ->
  (forall k, In k (keys extra) -> Js.obj_has k base = false) ->
  Js.spread base extra = base ++ extra.
Proof.
  unfold Js.spread.
  induction extra as [|[k v] extra IH]; intros base Hnd Hfresh; simpl.
  - now rewrite app_nil_r.
  - inversion Hnd as [|? ? Hnotin Hnd']; subst.
    rewrite obj_set_fresh by (apply Hfresh; now left).
    rewrite IH; [now rewrite <- app_assoc | assumption |].
    intros k' Hin. rewrite obj_has_app, (Hfresh k') by now right.
    simpl. rewrite orb_false_r. apply String.eqb_neq. intros ->. contradiction.
Qed.

(** What [{ target: { tabId }, ...script }] hands over, for an options
    object with distinct property names.  Without a [target] of its own the
    object is passed on unchanged behind the tab's target.  In general every
    property of the object is passed through, and a [target] property of the
    object itself replaces the tab's. *)
Theorem dispatch_options_are_targeted (tabId : JsValue) (script : JsObject) :
  NoDup (keys script) ->
  (Js.obj_has "target" script = false ->
   with_target tabId script = ("target", JObj [("tabId", tabId)]) :: script) /\
  (forall k, Js.obj_has k script = true ->
     Js.obj_get k (with_target tabId script) = Js.obj_get k script) /\
  (forall k, Js.obj_has k script = false ->
     Js.obj_get k (with_target tabId script)
     = if String.eqb k "target" then JObj [("tabId", tabId)] else JUndefined).
Proof.
  intros Hnd. unfold with_target. repeat split.
  - intros Hno. rewrite spread_fresh; [reflexivity | assumption |].
    intros k Hin. simpl. rewrite orb_false_r. apply String.eqb_neq. intros ->.
    apply obj_has_In in Hin. congruence.
  - intros k Hk. now rewrite obj_get_spread, Hk.
  - intros k Hk. now rewrite obj_get_spread, Hk.
Qed.

(** ** Inject once, activate on every click *)

Section Clicks.
Import Session.
Variable S : Type.
Variable cb : Callback S.
Variable id : Z.
Variable file : string.
Variable tab : JsObject.
Variable click : option bool.
Variable files : list (string * Tab.ContentScriptFile S).

Hypothesis callback_returns : forall c sid s, fst (cb c sid s) = Normal tt.
Hypothesis tab_has_id : Js.obj_get "id" tab = JNum id.
Hypothesis id_is_truthy : id <> 0%Z.
Hypothesis file_is_named : file <> "".
Hypothesis file_is_shipped :
  Tab.lookup_file S file files = Some (Tab.mkFile (Some cb) None).

Let options : ContentScriptActivationOptions (Tab.World S) :=
  mkOptions None (InjectString file) None click.
Let request : JsValue := createRequestActivationMessage (mkContext tab (JNum id)) None.
Let context : JsValue := context_value (mkContext tab (JNum id)).
Let success : JsValue := createActivationSuccessMessage None.
Let answered (log : list AgentEvent) : list AgentEvent :=
  log ++ [Activated context None (Normal tt); Responded success].
Let injection : JsObject :=
  [("target", JObj [("tabId", JNum id)]); ("files", JArr [JStr file])].

Lemma probe_of_live_tab (s : S) (log : list AgentEvent) :
  Tab.sendMessage S (JNum id) request
    (Tab.mkWorld id [listener (Some cb) None] s log files)
  = (Normal success,
     Tab.mkWorld id [listener (Some cb) None] (snd (cb context None s))
       (answered log) files).
Proof.
  unfold Tab.sendMessage. cbn [Tab.tab_id Tab.onMessage Tab.page Tab.page_log
                               Tab.extension_files Tab.deliver].
  rewrite Z.eqb_refl.
  rewrite ContentScriptFacts.listener_accepting by reflexivity.
  unfold bind. rewrite ContentScriptFacts.call_onActivation_run.
  change (Js.get request "context") with context.
  pose proof (callback_returns context None s) as Hcb.
  destruct (cb context None s) as [[[]|] s1]; [|discriminate].
  reflexivity.
Qed.

Lemma probe_of_cold_tab (s : S) (log : list AgentEvent) :
  Tab.sendMessage S (JNum id) request (Tab.mkWorld id [] s log files)
  = (Thrown, Tab.mkWorld id [] s log files).
Proof.
  unfold Tab.sendMessage. cbn [Tab.tab_id Tab.onMessage Tab.page Tab.page_log
                               Tab.extension_files Tab.deliver].
  rewrite Z.eqb_refl. cbn. now rewrite app_nil_r.
Qed.

Lemma injection_of_cold_tab (s : S) (log : list AgentEvent) :
  Tab.executeScript S injection (Tab.mkWorld id [] s log files)
  = (Normal (Normal tt), Tab.mkWorld id [listener (Some cb) None] s log files).
Proof.
  unfold Tab.executeScript, Tab.targets, injection. cbn. rewrite Z.eqb_refl.
  rewrite file_is_shipped. reflexivity.
Qed.

Lemma click_on_live_tab (s : S) (log : list AgentEvent) :
  activate Tab.browser options tab
    (Tab.mkWorld id [listener (Some cb) None] s log files)
  = (Normal tt,
     Tab.mkWorld id [listener (Some cb) None] (snd (cb context None s))
       (answered log) files,
     [SendMessage (JNum id) request (Normal success)]).
Proof.
  unfold activate. rewrite tab_has_id. cbn [Js.truthy].
  rewrite (proj2 (Z.eqb_neq id 0) id_is_truthy). cbn [negb].
  erewrite run_bind_normal by reflexivity. cbv beta iota.
  erewrite run_bind_normal by apply activateContentScript_run.
  cbn [tabId tabs_sendMessage Tab.browser]. fold request.
  rewrite probe_of_live_tab. reflexivity.
Qed.

Lemma click_on_cold_tab (s : S) (log : list AgentEvent) :
  activate Tab.browser options tab (Tab.mkWorld id [] s log files)
  = (Normal tt,
     Tab.mkWorld id [listener (Some cb) None] (snd (cb context None s))
       (answered log) files,
     [SendMessage (JNum id) request Thrown;
      ExecuteScript injection (Normal (Normal tt));
      SendMessage (JNum id) request (Normal success)]).
Proof.
  unfold activate. rewrite tab_has_id. cbn [Js.truthy].
  rewrite (proj2 (Z.eqb_neq id 0) id_is_truthy). cbn [negb].
  unfold options. cbn [filterTab inject scriptId resolve_inject beforeInjection
                       afterInjection scripts styles sources_truthy].
  rewrite (proj2 (String.eqb_neq file "") file_is_named). cbn [negb].
  change (injections (Single (File file))) with [[("files", JArr [JStr file])]].
  eapply run_with_log.
  { (* nothing answers the first probe *)
    eapply run_bind_step; [reflexivity | cbv beta iota].
    eapply run_bind_step; [apply activateContentScript_run | cbv beta iota].
    cbn [tabId tabs_sendMessage Tab.browser]. fold request.
    rewrite probe_of_cold_tab. cbn [fst snd probe_succeeded negb].
    (* the file is injected and registers the listener *)
    eapply run_bind_step; [reflexivity | cbv beta iota].
    eapply run_bind_step;
      [ rewrite dispatch_single;
        change (with_target (JNum id) [("files", JArr [JStr file])]) with injection;
        cbn [scripting_executeScript Tab.browser];
        rewrite injection_of_cold_tab; cbn [fst snd]; reflexivity
      | cbv beta iota ].
    eapply run_bind_step; [reflexivity | cbv beta iota].
    eapply run_bind_step; [reflexivity | cbv beta iota].
    eapply run_bind_step; [reflexivity | cbv beta iota].
    (* the second probe reaches it *)
    eapply run_bind_step; [apply activateContentScript_run | cbv beta iota].
    cbn [tabId tabs_sendMessage Tab.browser]. fold request.
    rewrite probe_of_live_tab. reflexivity. }
  cbn [app tabId tabs_sendMessage Tab.browser]. fold request.
  now rewrite probe_of_cold_tab, probe_of_live_tab.
Qed.

Lemma activations_answered (log : list AgentEvent) :
  activations (answered log) = activations log ++ [(context, None)].
Proof. unfold answered, activations. now rewrite flat_map_app. Qed.

Lemma clicks_on_live_tab (n : nat) : forall (s : S) (log : list AgentEvent),
  concat (map script_dispatches
            (snd (clicks options tab n
                    (Tab.mkWorld id [listener (Some cb) None] s log files)))) = [] /\
  concat (map style_dispatches
            (snd (clicks options tab n
                    (Tab.mkWorld id [listener (Some cb) None] s log files)))) = [] /\
  Tab.onMessage (fst (clicks options tab n
                        (Tab.mkWorld id [listener (Some cb) None] s log files)))
    = [listener (Some cb) None] /\
  activations (Tab.page_log
                 (fst (clicks options tab n
                         (Tab.mkWorld id [listener (Some cb) None] s log files))))
    = activations log ++ repeat (context, None) n.
Proof.
  induction n as [|n IH]; intros s log.
  - cbn. now rewrite app_nil_r.
  - cbn [clicks]. rewrite click_on_live_tab.
    destruct (IH (snd (cb context None s)) (answered log)) as (Hs & Hc & Hl & Ha).
    destruct (clicks options tab n _) as [w2 ts]. cbn [fst snd map concat] in *.
    rewrite Hs, Hc, Hl, Ha, activations_answered, <- app_assoc.
    repeat split; reflexivity.
Qed.

(** On a tab that starts without the content script, any number of clicks
    injects it exactly once, with the first click, and the activation
    callback runs once for every click, the first included: after [n + 1]
    clicks the tab has one listener and [n + 1] more activations, each with
    the context of the clicked tab. *)
Theorem inject_once_activate_every_click (n : nat) (s : S) (log : list AgentEvent) :
  concat (map script_dispatches
            (snd (clicks options tab (Datatypes.S n) (Tab.mkWorld id [] s log files))))
    = [[("target", JObj [("tabId", JNum id)]); ("files", JArr [JStr file])]] /\
  concat (map style_dispatches
            (snd (clicks options tab (Datatypes.S n) (Tab.mkWorld id [] s log files))))
    = [] /\
  length (Tab.onMessage
            (fst (clicks options tab (Datatypes.S n) (Tab.mkWorld id [] s log files))))
    = 1 /\
  activations (Tab.page_log
                 (fst (clicks options tab (Datatypes.S n)
                         (Tab.mkWorld id [] s log files))))
    = activations log
      ++ repeat (context_value (mkContext tab (JNum id)), None) (Datatypes.S n).
Proof.
  cbn [clicks]. rewrite click_on_cold_tab.
  destruct (clicks_on_live_tab n (snd (cb context None s)) (answered log))
    as (Hs & Hc & Hl & Ha).
  destruct (clicks options tab n _) as [w2 ts]. cbn [fst snd map concat] in *.
  rewrite Hs, Hc, Hl, Ha, activations_answered, <- app_assoc.
  repeat split; reflexivity.
Qed.
End Clicks.

(** ** The properties at work *)

Section Instances.
Import Examples Fixtures Session.

Lemma discriminators_partition_traffic_witness :
  isRequestActivationMessage foreign_message = Normal false /\
  isActivationSuccessMessage foreign_message = Normal false /\
  isRequestActivationMessage (JStr "ping") = Thrown /\
  isActivationSuccessMessage untagged_request = Normal false.
Proof.
  split; [|split; [|split]].
  - apply (proj1 (proj2 (proj2 (discriminators_partition_traffic foreign_message)))
             [("type", JStr "ping")]); reflexivity.
  - apply (proj1 (proj2 (proj2 (discriminators_partition_traffic foreign_message)))
             [("type", JStr "ping")]); reflexivity.
  - apply (proj2 (proj2 (proj2 (discriminators_partition_traffic (JStr "ping")))));
      intros; discriminate.
  - apply (proj1 (discriminators_partition_traffic untagged_request)). reflexivity.
Defined.

Lemma built_request_reaches_agent_of_same_tag_witness :
  (events (listener (Some Tab.count_activation) (Some "x") untagged_request 0) = [] /\
   final (listener (Some Tab.count_activation) (Some "x") untagged_request 0) = 0) /\
  (activations (events (listener (Some Tab.count_activation) (Some "x") tagged_request 0))
     = [(context_value (mkContext clicked_tab (JNum 1)), Some "x")] /\
   final (listener (Some Tab.count_activation) (Some "x") tagged_request 0) = 1).
Proof.
  split.
  - apply (proj1 (built_request_reaches_agent_of_same_tag
                    (Some Tab.count_activation) (Some "x") None
                    (mkContext clicked_tab (JNum 1)) 0)).
    discriminate.
  - destruct (proj2 (built_request_reaches_agent_of_same_tag
                       (Some Tab.count_activation) (Some "x") (Some "x")
                       (mkContext clicked_tab (JNum 1)) 0))
      as (Hact & Hfinal & _).
    split; [exact Hact | exact Hfinal].
Defined.

Lemma throwing_callback_withholds_reply_witness :
  result (listener (Some Tab.failing_callback) None untagged_request 0) = Thrown /\
  responses (events (listener (Some Tab.failing_callback) None untagged_request 0)) = [] /\
  activations (events (listener (Some Tab.failing_callback) None untagged_request 0))
    = [(Js.get untagged_request "context", None)].
Proof.
  apply (throwing_callback_withholds_reply Tab.failing_callback None untagged_request 0);
    reflexivity.
Defined.

Lemma probe_accepts_reply_of_same_tag_witness :
  result (activateContentScript Tab.browser (mkContext clicked_tab (JNum 1)) None
            (live_page None)) = Normal true <-> None = (None : option string).
Proof.
  apply (proj2 (probe_accepts_reply_of_same_tag Tab.browser
                  (mkContext clicked_tab (JNum 1)) None None (live_page None))).
  reflexivity.
Defined.


Lemma failed_beforeInjection_prevents_injection_witness :
  result (activate silent_browser (cold_scenario failing_hook idle_hook None None)
            clicked_tab 0) = Thrown /\
  script_dispatches
    (events (activate silent_browser (cold_scenario failing_hook idle_hook None None)
               clicked_tab 0)) = [].
Proof.
  destruct (failed_beforeInjection_prevents_injection silent_browser
              (cold_scenario failing_hook idle_hook None None) clicked_tab 0)
    as (Hr & Hs & _).
  - reflexivity.
  - split; assumption.
Defined.


Lemma filter_verdict_gates_the_trigger_witness :
  activate silent_browser
    (mkOptions (Some refusing_filter) (InjectString "content-script.js") None None)
    clicked_tab 0
  = (Normal tt, 0, [FilterTab clicked_tab (Normal (JBool false))]).
Proof.
  apply (proj1 (filter_verdict_gates_the_trigger silent_browser
                  (mkOptions (Some refusing_filter) (InjectString "content-script.js")
                     None None)
                  clicked_tab refusing_filter 0 eq_refl eq_refl));
    reflexivity.
Defined.

Lemma shorthands_agree_witness :
  activate silent_browser (resolve_options (OptionsString "content-script.js"))
           clicked_tab 0
  = activate silent_browser (resolve_options (OptionsStrings ["content-script.js"]))
             clicked_tab 0.
Proof.
  apply (shorthands_agree silent_browser "content-script.js" clicked_tab 0).
  discriminate.
Defined.


Lemma dispatch_options_are_targeted_witness :
  with_target (JNum 1) custom_script
  = ("target", JObj [("tabId", JNum 1)]) :: custom_script.
Proof.
  apply (dispatch_options_are_targeted (JNum 1) custom_script).
  - repeat constructor; simpl; intuition discriminate.
  - reflexivity.
Defined.

(** An options object that names a tab keeps it: the injection goes to
    tab 99, not to the clicked tab 1. *)
Lemma retargeted_script_keeps_its_target :
  Js.obj_get "target" (with_target (JNum 1) retargeted_script)
  = JObj [("tabId", JNum 99)].
Proof. reflexivity. Qed.

Lemma inject_once_activate_every_click_witness :
  concat (map script_dispatches
            (snd (clicks (controller "content-script.js" None (Some true)) clicked_tab 3
                    (fresh_page None))))
  = [[("target", JObj [("tabId", JNum 1)]); ("files", JArr [JStr "content-script.js"])]] /\
  Tab.page (fst (clicks (controller "content-script.js" None (Some true)) clicked_tab 3
                   (fresh_page None))) = 3.
Proof.
  split.
  - apply (inject_once_activate_every_click nat Tab.count_activation 1
             "content-script.js" clicked_tab (Some true)
             [("content-script.js", content_script None)]
             (fun _ _ _ => eq_refl) eq_refl ltac:(discriminate) ltac:(discriminate)
             eq_refl 2 0 []).
  - reflexivity.
Defined.
End Instances.

End ProtocolFacts.
